(** * generate_spectrograms.py: a shallow embedding and its properties

    The script walks a fixed list of method directories below
    [input_wsj0c3], decodes every [*.wav] entry, turns it into a
    mel-spectrogram in decibels and saves a picture of it below
    [spectrograms].

    The embedding keeps the two functions of the script,
    [create_spectrogram] and [main], as state-passing programs over
      - a directory tree (the working directory),
      - the lines printed so far,
      - the trace of calls made to librosa and matplotlib.
    The libraries themselves are not part of the script: decoding, the
    mel transform, drawing and saving are taken as an oracle record
    ([collaborators]), so every statement holds for all behaviours of
    these libraries; [power_to_db] and [np.max] are modelled over the
    exact reals from the library's documented computation.

    Conventions: a raised [Exception] is its message; text is a string
    of bytes, as the file system and a UTF-8 source hold it, so the two
    marks of the script are not ASCII and a file name may hold a byte
    that is no text at all; [print] raises only when the standard output
    cannot encode the text, which its encoder decides, and never on pure
    ASCII (the stream itself stays open); paths are relative to the
    working directory; [Path.glob] matches names as on POSIX (case
    sensitive); permissions are not modelled, so [mkdir] fails only on a
    regular file in the way or on a missing parent. *)

From Stdlib Require Import String Ascii List Bool Arith ZArith QArith Qround.
From Stdlib Require Import Reals Lra Lia DecimalString.
Import ListNotations.

Set Warnings "-register-all".
Close Scope R_scope.
Close Scope Q_scope.
Local Open Scope list_scope.
Local Open Scope string_scope.

(* ================================================================= *)
(** ** Strings and paths *)

Module Paths.

(** A [pathlib.Path] that is relative to the working directory: the
    list of its components. *)
Definition path := list string.

(** [Path / name]. *)
Definition div (p : path) (name : string) : path := (p ++ [name])%list.

(** [Path.name]: the last component, empty for the empty path. *)
Definition name (p : path) : string := last p "".

(** [Path.parent]. *)
Definition parent (p : path) : path := removelast p.

(** [str(path)]: the components joined by a slash; [Path()] prints as a dot. *)
Fixpoint join (p : path) : string :=
  match p with
  | [] => "."
  | [x] => x
  | x :: rest => x ++ "/" ++ join rest
  end.

(** [str.rfind(c)]: index of the last occurrence. *)
Fixpoint rfind (c : ascii) (s : string) : option nat :=
  match s with
  | EmptyString => None
  | String a t =>
      match rfind c t with
      | Some i => Some (S i)
      | None => if Ascii.eqb a c then Some 0 else None
      end
  end.

(** [Path.stem] on a name: the name without its last suffix; a leading
    or a trailing dot starts no suffix. *)
Definition stem_of_name (nm : string) : string :=
  match rfind "." nm with
  | Some i =>
      if (Nat.ltb 0 i && Nat.ltb i (String.length nm - 1))%bool
      then substring 0 i nm else nm
  | None => nm
  end.

Definition stem (p : path) : string := stem_of_name (name p).

(** [fnmatch.fnmatchcase name pat] for patterns made of literal
    characters, [?] and [*] (the only pattern of the script is
    ["*.wav"], which has no bracket expression).  The match is on the
    whole name and is case sensitive, as [Path.glob] is on POSIX. *)
Fixpoint fnmatch (pat : string) : string -> bool :=
  match pat with
  | EmptyString => fun nm => match nm with EmptyString => true | _ => false end
  | String c pat' =>
      if Ascii.eqb c "*" then
        fix star (nm : string) : bool :=
          (fnmatch pat' nm
          || match nm with
             | EmptyString => false
             | String _ nm' => star nm'
             end)%bool
      else if Ascii.eqb c "?" then
        fun nm => match nm with
                  | EmptyString => false
                  | String _ nm' => fnmatch pat' nm'
                  end
      else
        fun nm => match nm with
                  | EmptyString => false
                  | String a nm' => (Ascii.eqb a c && fnmatch pat' nm')%bool
                  end
  end.

(** The text holds ASCII characters only (no byte has its top bit set). *)
Fixpoint is_ascii (s : string) : bool :=
  match s with
  | EmptyString => true
  | String (Ascii _ _ _ _ _ _ _ top) t => (negb top && is_ascii t)%bool
  end.

End Paths.
Export Paths.

(* ================================================================= *)
(** ** The directory tree *)

Module Tree.

(** A regular file with its bytes, or a directory with its entries in
    the order the file system lists them. *)
Inductive node : Type :=
| File (bytes : string)
| Dir (entries : list (string * node)).

Fixpoint get (x : string) (es : list (string * node)) : option node :=
  match es with
  | [] => None
  | (y, n) :: rest => if String.eqb x y then Some n else get x rest
  end.

(** Replace the entry called [x], or add it after the others. *)
Fixpoint set (x : string) (v : node) (es : list (string * node))
  : list (string * node) :=
  match es with
  | [] => [(x, v)]
  | (y, n) :: rest =>
      if String.eqb x y then (y, v) :: rest else (y, n) :: set x v rest
  end.

(** The node a path leads to, if any. *)
Fixpoint lookup (n : node) (p : path) : option node :=
  match p with
  | [] => Some n
  | x :: rest =>
      match n with
      | Dir es =>
          match get x es with
          | Some child => lookup child rest
          | None => None
          end
      | File _ => None
      end
  end.

(** Put [v] at path [p]; nothing changes when the parent of [p] is not
    an existing directory. *)
Fixpoint update (p : path) (v : node) (n : node) : node :=
  match p with
  | [] => v
  | x :: rest =>
      match n with
      | File _ => n
      | Dir es =>
          match rest with
          | [] => Dir (set x v es)
          | _ :: _ =>
              match get x es with
              | Some child => Dir (set x (update rest v child) es)
              | None => n
              end
          end
      end
  end.

(** [Path.exists()], [Path.is_dir()], and being a regular file. *)
Definition exists_ (n : node) (p : path) : bool :=
  match lookup n p with Some _ => true | None => false end.

Definition is_dir (n : node) (p : path) : bool :=
  match lookup n p with Some (Dir _) => true | _ => false end.

Definition is_file (n : node) (p : path) : bool :=
  match lookup n p with Some (File _) => true | _ => false end.

(** [list(p.glob(pat))] for a pattern without a slash: the entries of
    the directory [p] itself whose name matches, in listing order; empty
    when [p] is not a directory.  Entries of nested directories are not
    visited. *)
Definition glob (n : node) (p : path) (pat : string) : list path :=
  match lookup n p with
  | Some (Dir es) =>
      map (fun e => div p (fst e)) (filter (fun e => fnmatch pat (fst e)) es)
  | _ => []
  end.

(** What a lookup tells about the kind of node it finds. *)
Inductive kind : Type := absent | regular | directory.

Definition kind_of (o : option node) : kind :=
  match o with
  | None => absent
  | Some (File _) => regular
  | Some (Dir _) => directory
  end.

End Tree.
Export Tree.

(* ================================================================= *)
(** ** Exceptions *)

(** A raised [Exception], kept as its message [str(e)].  The script
    catches [Exception] only; interrupts are outside the model. *)
Definition exn := string.

Inductive result (A : Type) : Type :=
| Ok (a : A)
| Raise (e : exn).
Arguments Ok {A} a.
Arguments Raise {A} e.

(* ================================================================= *)
(** ** Decibel conversion over the reals *)

Module Decibel.
Local Open Scope R_scope.

(** A waveform and a spectrogram matrix (rows are mel bands). *)
Definition waveform := list R.
Definition matrix := list (list R).

(** The [ref] argument of [power_to_db]: a number, or the callable
    [np.max]. *)
Inductive ref_arg : Type :=
| ref_const (r : R)
| ref_np_max.

(** Defaults of [librosa.power_to_db]: [amin=1e-10], [top_db=80.0]. *)
Definition amin : R := / 10 ^ 10.
Definition top_db : R := 80.

Definition log10 (x : R) : R := ln x / ln 10.

(** [np.max] of a two-dimensional array: the largest entry; numpy
    raises [ValueError] on an array without entries. *)
Definition np_max (S : matrix) : result R :=
  match concat S with
  | [] => Raise
      "zero-size array to reduction operation maximum which has no identity"
  | x :: xs => Ok (fold_left Rmax xs x)
  end.

Definition mmap (f : R -> R) (S : matrix) : matrix := map (map f) S.

(** [librosa.power_to_db(S, ref=ref)] with the default [amin] and
    [top_db], following the library:
    [log_spec = 10*log10(maximum(amin, S)) - 10*log10(maximum(amin, ref_value))],
    then [maximum(log_spec, log_spec.max() - top_db)]. *)
Definition power_to_db (S : matrix) (ref : ref_arg) : result matrix :=
  match (match ref with
         | ref_const r => Ok (Rabs r)
         | ref_np_max => np_max S
         end) with
  | Raise e => Raise e
  | Ok ref_value =>
      let log_spec :=
        mmap (fun x => 10 * log10 (Rmax amin x)
                       - 10 * log10 (Rmax amin ref_value)) S in
      match np_max log_spec with
      | Raise e => Raise e
      | Ok top => Ok (mmap (fun v => Rmax v (top - top_db)) log_spec)
      end
  end.

(** Multiplying every power value by [k] (what scaling the waveform by
    a factor [c] with [k = c*c] does to a power spectrogram). *)
Definition scale (k : R) (S : matrix) : matrix := mmap (fun x => k * x) S.

(** Order-preserving functions on the reals. *)
Definition monotone (f : R -> R) : Prop := forall x y, x <= y -> f x <= f y.

(** One entry of [log_spec] as a function of the power value. *)
Definition db_rel (ref_value x : R) : R :=
  10 * log10 (Rmax amin x) - 10 * log10 (Rmax amin ref_value).

Definition clip (top v : R) : R := Rmax v (top - top_db).

(** All power values are at or above the floor [amin]. *)
Definition above_floor (S : matrix) : Prop :=
  Forall (Forall (fun x => amin <= x)) S.

End Decibel.
Export Decibel.

(* ================================================================= *)
(** ** Library calls, the world and the monad *)

(** The calls the script makes into librosa and matplotlib, with the
    arguments it passes. *)
Inductive call : Type :=
| Load (audio_path : path) (sr : option Z)
| Melspectrogram (y : waveform) (sr n_mels fmax : Z)
| PowerToDb (S : matrix) (ref : ref_arg)
| Figure (figsize : Q * Q) (dpi : Q)
| SubplotsAdjust (left bottom right top wspace hspace : Q)
| Specshow (data : matrix) (sr : Z) (x_axis y_axis : string) (fmax : Z)
           (cmap : string)
| Axis (arg : string)
| TightLayout (pad : Q)
| Savefig (fname : path) (bbox_inches : string) (pad_inches dpi : Q)
          (facecolor edgecolor : string)
| Close.

(** What [plt.savefig] did: it wrote the whole picture, or it raised
    and left the destination alone ([None]) or with the bytes written
    so far ([Some]). *)
Inductive save_outcome : Type :=
| Saved (png : string)
| SaveFailed (e : exn) (residue : option string).

(** The collaborators of the script.  Each oracle sees the directory
    tree and, for matplotlib, the calls made so far (pyplot keeps the
    current figure as hidden state).  [stdout_encode] is the encoder of
    the standard output: the [UnicodeEncodeError] it raises for a text,
    if any. *)
Record collaborators : Type := {
  librosa_load : node -> path -> option Z -> result (waveform * Z);
  librosa_melspectrogram : waveform -> Z -> Z -> Z -> result matrix;
  pyplot : list call -> call -> option exn;
  plt_savefig : node -> list call -> call -> save_outcome;
  stdout_encode : string -> option exn
}.

Record state : Type := {
  fs : node;
  stdout : list string;
  trace : list call
}.

Definition M (A : Type) : Type := state -> result A * state.

Definition ret {A} (a : A) : M A := fun s => (Ok a, s).

Definition bind {A B} (m : M A) (k : A -> M B) : M B :=
  fun s =>
    match m s with
    | (Ok a, s') => k a s'
    | (Raise e, s') => (Raise e, s')
    end.

Definition raise {A} (e : exn) : M A := fun s => (Raise e, s).

(** [try: m  except Exception as e: h e]. *)
Definition try_except {A} (m : M A) (h : exn -> M A) : M A :=
  fun s =>
    match m s with
    | (Ok a, s') => (Ok a, s')
    | (Raise e, s') => h e s'
    end.

Declare Scope monad_scope.
Delimit Scope monad_scope with monad.
Notation "x <- m ;; k" := (bind m (fun x => k))
  (at level 61, m at next level, right associativity) : monad_scope.
Notation "' pat <- m ;; k" := (bind m (fun x => match x with pat => k end))
  (at level 61, pat pattern, m at next level, right associativity)
  : monad_scope.
Notation "m ;; k" := (bind m (fun _ => k))
  (at level 61, right associativity) : monad_scope.
Local Open Scope monad_scope.

(** [Path.exists()]. *)
Definition path_exists (p : path) : M bool :=
  fun s => (Ok (exists_ (fs s) p), s).

(** [Path.mkdir(exist_ok=True)]: nothing to do on an existing
    directory; [FileExistsError] on a regular file; the parent must be an
    existing directory. *)
Definition mkdir_exist_ok (p : path) : M unit :=
  fun s =>
    match lookup (fs s) p with
    | Some (Dir _) => (Ok tt, s)
    | Some (File _) =>
        (Raise ("[Errno 17] File exists: '" ++ join p ++ "'"), s)
    | None =>
        match lookup (fs s) (parent p) with
        | Some (Dir _) =>
            (Ok tt, {| fs := update p (Dir []) (fs s); stdout := stdout s;
                       trace := trace s |})
        | Some (File _) =>
            (Raise ("[Errno 20] Not a directory: '" ++ join p ++ "'"), s)
        | None =>
            (Raise ("[Errno 2] No such file or directory: '" ++ join p ++ "'"),
             s)
        end
    end.

(** [list(p.glob(pat))]. *)
Definition path_glob (p : path) (pat : string) : M (list path) :=
  fun s => (Ok (glob (fs s) p pat), s).

(* ================================================================= *)
(** ** The script *)

Definition logged (c : call) (s : state) : state :=
  {| fs := fs s; stdout := stdout s; trace := (trace s ++ [c])%list |}.

Definition written (p : path) (bytes : string) (s : state) : state :=
  {| fs := update p (File bytes) (fs s); stdout := stdout s;
     trace := trace s |}.

(** [str(n)] for a count. *)
Definition str_nat (n : nat) : string :=
  NilEmpty.string_of_uint (Nat.to_uint n).

Definition nl : string := String (ascii_of_nat 10) EmptyString.

(** ["-" * n]. *)
Definition dashes (n : nat) : string := String.concat "" (repeat "-" n).

(** Defaults of [create_spectrogram]: [figsize=(5, 2.78)], [dpi=72];
    the decimal literal is kept as the exact rational 278/100. *)
Definition default_figsize : Q * Q := (5%Q, 2.78%Q).
Definition default_dpi : Q := 72%Q.

Section Script.

Variable E : collaborators.

(** What [print(line)] raises, if anything: text of ASCII characters
    only can always be encoded for the standard output; for any other
    text its encoder decides. *)
Definition print_error (line : string) : option exn :=
  if is_ascii line then None else stdout_encode E line.

(** [print(line)]. *)
Definition print (line : string) : M unit :=
  fun s =>
    match print_error line with
    | None =>
        (Ok tt, {| fs := fs s; stdout := (stdout s ++ [line])%list;
                   trace := trace s |})
    | Some e => (Raise e, s)
    end.

(** [librosa.load(audio_path, sr=sr)]. *)
Definition do_load (audio_path : path) (sr : option Z) : M (waveform * Z) :=
  fun s => (librosa_load E (fs s) audio_path sr, logged (Load audio_path sr) s).

(** [librosa.feature.melspectrogram(y=y, sr=sr, n_mels=n_mels, fmax=fmax)]. *)
Definition do_melspectrogram (y : waveform) (sr n_mels fmax : Z) : M matrix :=
  fun s => (librosa_melspectrogram E y sr n_mels fmax,
            logged (Melspectrogram y sr n_mels fmax) s).

(** [librosa.power_to_db(S, ref=ref)]. *)
Definition do_power_to_db (S : matrix) (ref : ref_arg) : M matrix :=
  fun s => (power_to_db S ref, logged (PowerToDb S ref) s).

(** A pyplot or display call that returns nothing the script uses. *)
Definition do_pyplot (c : call) : M unit :=
  fun s =>
    (match pyplot E (trace s) c with
     | Some e => Raise e
     | None => Ok tt
     end, logged c s).

(** [plt.savefig(fname, bbox_inches=.., pad_inches=.., dpi=..,
    facecolor=.., edgecolor=..)]. *)
Definition do_savefig (fname : path) (bbox_inches : string)
    (pad_inches dpi : Q) (facecolor edgecolor : string) : M unit :=
  fun s =>
    let c := Savefig fname bbox_inches pad_inches dpi facecolor edgecolor in
    match plt_savefig E (fs s) (trace s) c with
    | Saved png => (Ok tt, logged c (written fname png s))
    | SaveFailed e None => (Raise e, logged c s)
    | SaveFailed e (Some bytes) => (Raise e, logged c (written fname bytes s))
    end.

(** The two lines a conversion can print. *)
Definition error_line (audio_path : path) (e : exn) : string :=
  "✗ Error processing " ++ join audio_path ++ ": " ++ e.

Definition generated_line (output_path : path) : string :=
  "✓ Generated: " ++ join output_path.

(** The body of the [try] in [create_spectrogram]. *)
Definition create_spectrogram_try (audio_path output_path : path)
    (figsize : Q * Q) (dpi : Q) : M unit :=
  ' (y, sr) <- do_load audio_path None ;;
  S <- do_melspectrogram y sr 128 8000 ;;
  S_dB <- do_power_to_db S ref_np_max ;;
  do_pyplot (Figure figsize dpi) ;;
  do_pyplot (SubplotsAdjust 0 0 1 1 0 0) ;;
  do_pyplot (Specshow S_dB sr "time" "mel" 8000 "viridis") ;;
  do_pyplot (Axis "off") ;;
  do_pyplot (TightLayout 0) ;;
  do_savefig output_path "tight" 0 dpi "white" "none" ;;
  do_pyplot Close ;;
  print (generated_line output_path).

Definition create_spectrogram (audio_path output_path : path)
    (figsize : Q * Q) (dpi : Q) : M unit :=
  try_except (create_spectrogram_try audio_path output_path figsize dpi)
             (fun e => print (error_line audio_path e)).

Definition input_dir : path := ["input_wsj0c3"].
Definition output_dir : path := ["spectrograms"].

Definition methods : list string :=
  ["clean"; "noisy"; "sgmsep"; "vpidm"; "flowse"; "vpvid_sde"; "vpvid_sdec";
   "vpvid_ode"].

Definition warning_line (method : string) : string :=
  "Warning: Method directory '" ++ method ++ "' not found, skipping...".

Definition processing_line (method : string) (n : nat) : string :=
  nl ++ "Processing " ++ method ++ " (" ++ str_nat n ++ " files):".

Definition total_line (processed_files total_files : nat) : string :=
  "Total files processed: " ++ str_nat processed_files ++ "/"
  ++ str_nat total_files.

Definition output_file (output_method_dir wav_file : path) : path :=
  div output_method_dir (stem wav_file ++ ".png").

(** [for wav_file in wav_files: ...], returning [processed_files]. *)
Fixpoint for_wav_files (output_method_dir : path) (wav_files : list path)
    (processed_files : nat) : M nat :=
  match wav_files with
  | [] => ret processed_files
  | wav_file :: rest =>
      create_spectrogram wav_file (output_file output_method_dir wav_file)
                         default_figsize default_dpi ;;
      for_wav_files output_method_dir rest (processed_files + 1)
  end.

(** [for method in methods: ...], returning
    [(total_files, processed_files)]. *)
Fixpoint for_methods (ms : list string) (total_files processed_files : nat)
  : M (nat * nat) :=
  match ms with
  | [] => ret (total_files, processed_files)
  | method :: rest =>
      let method_dir := div input_dir method in
      present <- path_exists method_dir ;;
      if negb present then
        print (warning_line method) ;;
        for_methods rest total_files processed_files
      else
        let output_method_dir := div output_dir method in
        mkdir_exist_ok output_method_dir ;;
        wav_files <- path_glob method_dir "*.wav" ;;
        let total_files := total_files + length wav_files in
        print (processing_line method (length wav_files)) ;;
        processed_files <-
          for_wav_files output_method_dir wav_files processed_files ;;
        for_methods rest total_files processed_files
  end.

Definition error_no_input : string :=
  "Error: Input directory '" ++ join input_dir ++ "' not found!".

Definition header : list string :=
  ["Generating spectrograms..."; "Output size: 360x200 pixels"; dashes 50].

Definition footer (processed_files total_files : nat) : list string :=
  [dashes 50;
   "Processing complete!";
   total_line processed_files total_files;
   "Spectrograms saved in: " ++ join output_dir ++ "/";
   nl ++ "To use in HTML, update image src paths from:";
   "  https://via.placeholder.com/360x200/f0f0f0/666?text=Spectrogram+Placeholder";
   "To:";
   "  spectrograms/{method}/{filename}.png";
   nl ++ "Example:";
   "  spectrograms/clean/051o0211.png";
   "  spectrograms/vpvid_sde/051o0211.png"].

Fixpoint print_all (lines : list string) : M unit :=
  match lines with
  | [] => ret tt
  | l :: rest => print l ;; print_all rest
  end.

Definition main : M unit :=
  present <- path_exists input_dir ;;
  if negb present then
    print error_no_input
  else
    mkdir_exist_ok output_dir ;;
    print_all header ;;
    ' (total_files, processed_files) <- for_methods methods 0 0 ;;
    print_all (footer processed_files total_files).

End Script.

(* ================================================================= *)
(** ** Vocabulary of the properties *)

(** The calls added to the trace between two states. *)
Definition calls_made (s s' : state) : list call :=
  skipn (length (trace s)) (trace s').

(** The audio paths of the decode calls of a trace: one per invocation
    of the converter. *)
Fixpoint load_paths (cs : list call) : list path :=
  match cs with
  | [] => []
  | Load p _ :: rest => p :: load_paths rest
  | _ :: rest => load_paths rest
  end.

(** The line a conversion prints: success with the output path, or
    failure with the audio path and the error. *)
Definition file_line (audio_path output_path : path) (line : string) : Prop :=
  line = generated_line output_path \/ exists e, line = error_line audio_path e.

(** What the driver finds for one method in a tree, and for all of them
    in the order of the list. *)
Definition discovered_in (n : node) (method : string) : list path :=
  glob n (div input_dir method) "*.wav".

Definition discovered (n : node) : list path :=
  flat_map (discovered_in n) methods.

(** Two trees agree on everything below the input root. *)
Definition same_input (n n' : node) : Prop :=
  forall q, lookup n' ("input_wsj0c3" :: q) = lookup n ("input_wsj0c3" :: q).

(** The lines printed for one method: a warning when its directory is
    absent, else the count and one line per discovered file, in order. *)
Definition method_block (n : node) (method : string) (block : list string)
  : Prop :=
  if exists_ n (div input_dir method) then
    exists lines,
      block = processing_line method (length (discovered_in n method)) :: lines
      /\ Forall2 (fun f l => file_line f (output_file (div output_dir method) f) l)
                 (discovered_in n method) lines
  else block = [warning_line method].



(** The save call was reached. *)
Definition is_savefig (c : call) : bool :=
  match c with
  | Savefig _ _ _ _ _ _ => true
  | _ => false
  end.

Definition saving_started (cs : list call) : bool := existsb is_savefig cs.

(** Failure-atomicity of one invocation with the default parameters:
    when the body of the converter raises, the destination is as it was
    before, or holds a picture that a save call wrote whole. *)
Definition atomic_on_failure (E : collaborators) (audio_path output_path : path)
    (s : state) : Prop :=
  forall e s1,
    create_spectrogram_try E audio_path output_path
      default_figsize default_dpi s = (Raise e, s1) ->
    lookup (fs s1) output_path = lookup (fs s) output_path
    \/ exists tr c png,
         plt_savefig E (fs s) tr c = Saved png
         /\ lookup (fs s1) output_path = Some (File png).

(** A call that respects the per-file reference: the conversion is
    referenced to [np.max], and the matrix that is drawn has maximum 0. *)
Definition reference_call (c : call) : Prop :=
  match c with
  | PowerToDb _ ref => ref = ref_np_max
  | Specshow D _ _ _ _ _ => np_max D = Ok 0%R
  | _ => True
  end.

(** The ten library calls of a conversion that succeeds, in order. *)
Definition script_calls (audio_path output_path : path) (figsize : Q * Q)
    (dpi : Q) (y : waveform) (sr : Z) (S S_dB : matrix) : list call :=
  [Load audio_path None;
   Melspectrogram y sr 128 8000;
   PowerToDb S ref_np_max;
   Figure figsize dpi;
   SubplotsAdjust 0 0 1 1 0 0;
   Specshow S_dB sr "time" "mel" 8000 "viridis";
   Axis "off";
   TightLayout 0;
   Savefig output_path "tight" 0 dpi "white" "none";
   Close].

(** The message of the [FileExistsError] that [mkdir] raises. *)
Definition file_exists_error (p : path) : exn :=
  "[Errno 17] File exists: '" ++ join p ++ "'".

(** The directories the driver makes. *)
Definition output_paths : list path :=
  output_dir :: map (div output_dir) methods.

(** Lines that start with the success mark, and with the failure mark. *)
Definition is_generated_line (line : string) : bool :=
  prefix "✓ Generated: " line.

Definition is_error_line (line : string) : bool :=
  prefix "✗ Error processing " line.

(** The number of marked lines. *)
Definition marks (lines : list string) : nat :=
  length (filter is_generated_line lines)
  + length (filter is_error_line lines).

(** A list of names without repetition. *)
Fixpoint nodupb (names : list string) : bool :=
  match names with
  | [] => true
  | x :: rest => negb (existsb (String.eqb x) rest) && nodupb rest
  end.

(** In every listed method directory the entry names are distinct, as
    they are in a real directory. *)
Definition distinct_names (n : node) : bool :=
  forallb (fun m => match lookup n (div input_dir m) with
                    | Some (Dir es) => nodupb (map fst es)
                    | _ => true
                    end) methods.

(** All values of a decibel matrix lie between [-top_db] and 0. *)
Definition in_db_range (D : matrix) : Prop :=
  Forall (Forall (fun v => (- top_db <= v <= 0)%R)) D.

(** A power matrix without any energy. *)
Definition silent (S : matrix) : Prop :=
  Forall (Forall (fun x => x = 0%R)) S.

(** A property of trees that survives everything the driver writes: a
    picture inside an output method directory, a new output method
    directory, a new output root. *)
Definition output_closed (P : node -> Prop) : Prop :=
  (forall n m nm b,
      P n -> P (update (div (div output_dir m) nm) (File b) n))
  /\ (forall n m,
        P n -> lookup n (div output_dir m) = None ->
        P (update (div output_dir m) (Dir []) n))
  /\ (forall n,
        P n -> lookup n output_dir = None ->
        P (update output_dir (Dir []) n)).

(** The standard output can encode every text. *)
Definition encodes_all (E : collaborators) : Prop :=
  forall line, stdout_encode E line = None.


(** A regular file is in the way of the output root, or of the output
    directory of a method whose input directory is present. *)
Definition blocked (n : node) : bool :=
  is_file n output_dir
  || existsb (fun m => exists_ n (div input_dir m)
                       && is_file n (div output_dir m)) methods.

(* ================================================================= *)
(** ** Sample worlds *)

Module Samples.

(** A working directory with two of the eight method directories, an
    upper-case name, a damaged file, a nested directory and a directory
    that is not in the list. *)
Definition tree : node :=
  Dir [("input_wsj0c3",
        Dir [("clean",
              Dir [("a.wav", File "RIFF");
                   ("b.WAV", File "RIFF");
                   ("c.wav", File "damaged");
                   ("sub", Dir [("d.wav", File "RIFF")])]);
             ("other", Dir [("z.wav", File "RIFF")]);
             ("noisy", Dir [("n.wav", File "RIFF")])])].

(** A working directory without the input root. *)
Definition empty_tree : node := Dir [("notes.txt", File "hello")].

Definition decode (n : node) (p : path) (sr : option Z)
  : result (waveform * Z) :=
  match lookup n p with
  | Some (File "RIFF") => Ok ([1%R; 0%R], 16000%Z)
  | _ => Raise "Error opening file: Format not recognised."
  end.

(** Libraries that work: only damaged files fail to decode. *)
Definition working : collaborators := {|
  librosa_load := decode;
  librosa_melspectrogram := fun y sr n_mels fmax => Ok [[1%R; 0%R]];
  pyplot := fun _ _ => None;
  plt_savefig := fun _ _ _ => Saved "PNG image";
  stdout_encode := fun _ => None
|}.

(** The same libraries on a full disk: the save call raises after it
    has written the first bytes. *)
Definition disk_full : collaborators := {|
  librosa_load := decode;
  librosa_melspectrogram := fun y sr n_mels fmax => Ok [[1%R; 0%R]];
  pyplot := fun _ _ => None;
  plt_savefig := fun _ _ _ =>
    SaveFailed "[Errno 28] No space left on device" (Some "PNG im");
  stdout_encode := fun _ => None
|}.

(** Libraries that cannot decode anything. *)
Definition broken : collaborators := {|
  librosa_load := fun _ _ _ => Raise "No backend available";
  librosa_melspectrogram := fun y sr n_mels fmax => Ok [[1%R; 0%R]];
  pyplot := fun _ _ => None;
  plt_savefig := fun _ _ _ => Saved "PNG image";
  stdout_encode := fun _ => None
|}.

Definition start (n : node) : state := {| fs := n; stdout := []; trace := [] |}.

(** The tree once the output directories exist. *)
Definition prepared : node :=
  update ["spectrograms"; "clean"] (Dir [])
         (update ["spectrograms"] (Dir []) tree).

Definition a_wav : path := ["input_wsj0c3"; "clean"; "a.wav"].
Definition c_wav : path := ["input_wsj0c3"; "clean"; "c.wav"].
Definition a_png : path := ["spectrograms"; "clean"; "a.png"].

(** A tone in one band next to an empty band, and the same recording
    played a hundred thousand times weaker in power. *)
Definition loud : matrix := [[1%R; 0%R]].
Definition quiet : matrix := scale (/ 10 ^ 5)%R loud.

(** A working directory where a regular file sits at the place of the
    output directory of [noisy]. *)
Definition blocked_tree : node :=
  Dir [("input_wsj0c3",
        Dir [("clean", Dir [("a.wav", File "RIFF")]);
             ("noisy", Dir [("n.wav", File "RIFF")])]);
       ("spectrograms", Dir [("noisy", File "old notes")])].

(** A name with a byte that is no UTF-8 text; Python reads such a name
    as a lone surrogate. *)
Definition bad_name : string := "bad" ++ String "255" ".wav".

Fixpoint undecodable (line : string) : bool :=
  match line with
  | EmptyString => false
  | String c rest => Ascii.eqb c "255" || undecodable rest
  end.

(** The working libraries behind a strict UTF-8 standard output: text
    with an undecodable byte cannot be printed. *)
Definition strict_stdout : collaborators := {|
  librosa_load := decode;
  librosa_melspectrogram := fun y sr n_mels fmax => Ok [[1%R; 0%R]];
  pyplot := fun _ _ => None;
  plt_savefig := fun _ _ _ => Saved "PNG image";
  stdout_encode := fun line =>
    if undecodable line
    then Some "'utf-8' codec can't encode character '\udcff': surrogates not allowed"
    else None
|}.

(** The working libraries behind a Latin-1 standard output, which has
    neither of the two marks. *)
Definition latin1_stdout : collaborators := {|
  librosa_load := decode;
  librosa_melspectrogram := fun y sr n_mels fmax => Ok [[1%R; 0%R]];
  pyplot := fun _ _ => None;
  plt_savefig := fun _ _ _ => Saved "PNG image";
  stdout_encode := fun line =>
    if prefix "✓" line
    then Some "'latin-1' codec can't encode character '✓' in position 0: ordinal not in range(256)"
    else if prefix "✗" line
    then Some "'latin-1' codec can't encode character '✗' in position 0: ordinal not in range(256)"
    else None
|}.

(** A method directory whose first file has such a name. *)
Definition bad_name_tree : node :=
  Dir [("input_wsj0c3",
        Dir [("clean", Dir [(bad_name, File "RIFF");
                            ("z.wav", File "RIFF")])])].

(** The result of a first run with the working libraries. *)
Definition after_first_run : state := snd (main working (start tree)).

End Samples.

(* ================================================================= *)
(** ** Facts about names and patterns *)

Module PathFacts.

Lemma append_length (a b : string) :
  String.length (a ++ b) = String.length a + String.length b.
Proof. induction a as [|c a IH]; simpl; [reflexivity | now rewrite IH]. Qed.

(** Two names with suffixes of the same length agree part by part. *)
Lemma append_same_length_inj (x y u v : string) :
  String.length u = String.length v -> x ++ u = y ++ v -> x = y /\ u = v.
Proof.
  intros Hl. revert y.
  induction x as [|c x IH]; intros [|d y] H; simpl in H.
  - split; [reflexivity | assumption].
  - apply (f_equal String.length) in H. simpl in H.
    rewrite append_length in H. lia.
  - apply (f_equal String.length) in H. simpl in H.
    rewrite append_length in H. lia.
  - injection H as -> H. destruct (IH _ H) as [-> ->]. split; reflexivity.
Qed.

Lemma fnmatch_dot_wav (nm : string) :
  fnmatch ".wav" nm = true -> nm = ".wav".
Proof.
  destruct nm as [|a1 [|a2 [|a3 [|a4 [|a5 r]]]]]; simpl; intros H;
    try discriminate;
    repeat match goal with
           | H : (_ && _)%bool = true |- _ => apply andb_prop in H; destruct H
           | H : Ascii.eqb _ _ = true |- _ => apply Ascii.eqb_eq in H; subst
           end;
    try discriminate; reflexivity.
Qed.

(** The pattern of the script accepts exactly the names that end in the
    four characters [.wav]. *)
Lemma fnmatch_star_wav (nm : string) :
  fnmatch "*.wav" nm = true <-> exists x, nm = x ++ ".wav".
Proof.
  split.
  - induction nm as [|c nm IH]; intros H.
    + simpl in H. discriminate.
    + change (fnmatch "*.wav" (String c nm))
        with (fnmatch ".wav" (String c nm) || fnmatch "*.wav" nm)%bool in H.
      apply orb_prop in H. destruct H as [H|H].
      * apply fnmatch_dot_wav in H. exists "". now rewrite H.
      * destruct (IH H) as [x ->]. now exists (String c x).
  - intros [x ->]. induction x as [|c x IH].
    + reflexivity.
    + change (fnmatch "*.wav" (String c x ++ ".wav"))
        with (fnmatch ".wav" (String c (x ++ ".wav"))
              || fnmatch "*.wav" (x ++ ".wav"))%bool.
      rewrite IH. apply orb_true_r.
Qed.

Lemma fnmatch_upper_wav (y : string) : fnmatch "*.wav" (y ++ ".WAV") = false.
Proof.
  destruct (fnmatch "*.wav" (y ++ ".WAV")) eqn:H; [|reflexivity].
  apply fnmatch_star_wav in H. destruct H as [x H].
  symmetry in H. apply append_same_length_inj in H; [|reflexivity].
  destruct H as [_ H]. discriminate.
Qed.

End PathFacts.

(* ================================================================= *)
(** ** Facts about the directory tree *)

Module TreeFacts.

Lemma get_set_eq x v es : get x (set x v es) = Some v.
Proof.
  induction es as [|[y n] es IH]; simpl.
  - now rewrite String.eqb_refl.
  - destruct (String.eqb x y) eqn:Hxy; simpl; rewrite Hxy; auto.
Qed.

Lemma get_set_ne x y v es : x <> y -> get y (set x v es) = get y es.
Proof.
  intros Hne. induction es as [|[z n] es IH]; simpl.
  - destruct (String.eqb y x) eqn:Hyx; [|reflexivity].
    apply String.eqb_eq in Hyx. congruence.
  - destruct (String.eqb x z) eqn:Hxz; simpl.
    + apply String.eqb_eq in Hxz. subst z.
      destruct (String.eqb y x) eqn:Hyx; [|reflexivity].
      apply String.eqb_eq in Hyx. congruence.
    + now rewrite IH.
Qed.

(** A write below a different top-level name is not seen. *)
Lemma lookup_update_other x p v n y q :
  x <> y -> lookup (update (x :: p) v n) (y :: q) = lookup n (y :: q).
Proof.
  intros Hne. destruct n as [b|es]; [reflexivity|].
  simpl. destruct p as [|z p].
  - simpl. now rewrite get_set_ne.
  - destruct (get x es) as [child|] eqn:Hx; [|reflexivity].
    simpl. now rewrite get_set_ne.
Qed.

(** A write changes the kind of no path that it does not extend. *)
Lemma kind_update p : forall v n q,
  (forall r, q <> (p ++ r)%list) ->
  kind_of (lookup (update p v n) q) = kind_of (lookup n q).
Proof.
  induction p as [|x p IH]; intros v n q Hq.
  - exfalso. apply (Hq q). reflexivity.
  - destruct n as [b|es]; [reflexivity|].
    destruct q as [|y q].
    + simpl. destruct p; [reflexivity|]. now destruct (get x es).
    + destruct (String.eqb x y) eqn:Hxy.
      * apply String.eqb_eq in Hxy. subst y.
        simpl. destruct p as [|z p].
        { exfalso. apply (Hq q). reflexivity. }
        destruct (get x es) as [child|] eqn:Hx; simpl.
        -- rewrite get_set_eq. apply IH.
           intros r Hr. apply (Hq r). simpl. now rewrite Hr.
        -- now rewrite Hx.
      * apply String.eqb_neq in Hxy.
        now rewrite lookup_update_other.
Qed.

Lemma is_dir_kind n p : is_dir n p = true <-> kind_of (lookup n p) = directory.
Proof.
  unfold is_dir. destruct (lookup n p) as [[b|es]|]; simpl;
    split; intros H; try discriminate; reflexivity.
Qed.

Lemma is_file_kind n p : is_file n p = false <-> kind_of (lookup n p) <> regular.
Proof.
  unfold is_file. destruct (lookup n p) as [[b|es]|]; simpl;
    split; intros H; try discriminate; try reflexivity; congruence.
Qed.

(** After a write whose parent is a directory the new node is found. *)
Lemma lookup_update_child x y v n :
  is_dir n [x] = true -> lookup (update [x; y] v n) [x; y] = Some v.
Proof.
  unfold is_dir. destruct n as [b|es]; simpl; [discriminate|].
  destruct (get x es) as [[b|es']|] eqn:Hx; try discriminate. intros _.
  simpl. rewrite get_set_eq. now rewrite get_set_eq.
Qed.

Lemma lookup_update_top x v es :
  lookup (update [x] v (Dir es)) [x] = Some v.
Proof. simpl. now rewrite get_set_eq. Qed.

End TreeFacts.

(* ================================================================= *)
(** ** Facts about the decibel conversion *)

Module DecibelFacts.
Local Open Scope R_scope.

Lemma ln10_pos : 0 < ln 10.
Proof. rewrite <- ln_1. apply ln_increasing; lra. Qed.

Lemma amin_pos : 0 < amin.
Proof. unfold amin. apply Rinv_0_lt_compat. apply pow_lt. lra. Qed.

Lemma ln_le (x y : R) : 0 < x -> x <= y -> ln x <= ln y.
Proof.
  intros Hx [Hlt|Heq].
  - left. apply ln_increasing; assumption.
  - subst. right. reflexivity.
Qed.

Lemma log10_le (x y : R) : 0 < x -> x <= y -> log10 x <= log10 y.
Proof.
  intros Hx Hxy. unfold log10, Rdiv.
  apply Rmult_le_compat_r.
  - left. apply Rinv_0_lt_compat. apply ln10_pos.
  - now apply ln_le.
Qed.

Lemma log10_mult (x y : R) : 0 < x -> 0 < y -> log10 (x * y) = log10 x + log10 y.
Proof.
  intros Hx Hy. unfold log10. rewrite ln_mult by assumption.
  pose proof ln10_pos. field. lra.
Qed.

Lemma log10_1 : log10 1 = 0.
Proof. unfold log10. rewrite ln_1. pose proof ln10_pos. field. lra. Qed.

Lemma log10_inv_pow10 (n : nat) : log10 (/ 10 ^ n) = - INR n.
Proof.
  unfold log10. rewrite ln_Rinv by (apply pow_lt; lra).
  rewrite ln_pow by lra. pose proof ln10_pos. field. lra.
Qed.

Lemma Rmax_monotone (f : R -> R) (x y : R) :
  monotone f -> Rmax (f x) (f y) = f (Rmax x y).
Proof.
  intros Hf. destruct (Rle_dec x y) as [Hxy|Hxy].
  - rewrite (Rmax_right x y) by assumption.
    apply Rmax_right. now apply Hf.
  - assert (y <= x) by lra.
    rewrite (Rmax_left x y) by assumption.
    apply Rmax_left. now apply Hf.
Qed.

Lemma fold_max_map (f : R -> R) : monotone f ->
  forall xs x, fold_left Rmax (map f xs) (f x) = f (fold_left Rmax xs x).
Proof.
  intros Hf. induction xs as [|a xs IH]; intros x; simpl.
  - reflexivity.
  - rewrite Rmax_monotone by assumption. apply IH.
Qed.

Lemma fold_max_ge : forall xs x, x <= fold_left Rmax xs x.
Proof.
  induction xs as [|a xs IH]; intros x; simpl.
  - lra.
  - eapply Rle_trans; [apply (Rmax_l x a) | apply IH].
Qed.

Lemma concat_mmap (f : R -> R) (S : matrix) :
  concat (mmap f S) = map f (concat S).
Proof. unfold mmap. symmetry. apply concat_map. Qed.

(** The largest entry moves with a monotone map. *)
Lemma np_max_mmap (f : R -> R) (S : matrix) (r : R) :
  monotone f -> np_max S = Ok r -> np_max (mmap f S) = Ok (f r).
Proof.
  intros Hf. unfold np_max. rewrite concat_mmap.
  destruct (concat S) as [|x xs]; simpl; [discriminate|].
  intros H. injection H as <-. now rewrite fold_max_map.
Qed.

Lemma np_max_ok (S : matrix) :
  concat S <> [] -> exists r, np_max S = Ok r.
Proof.
  unfold np_max. destruct (concat S) as [|x xs]; [congruence|].
  intros _. eexists. reflexivity.
Qed.

Lemma np_max_ok_inv (S : matrix) (r : R) : np_max S = Ok r -> concat S <> [].
Proof. unfold np_max. destruct (concat S); [discriminate | congruence]. Qed.

Lemma db_rel_monotone (r : R) : monotone (db_rel r).
Proof.
  intros x y Hxy. unfold db_rel.
  assert (log10 (Rmax amin x) <= log10 (Rmax amin y)).
  { apply log10_le.
    - eapply Rlt_le_trans; [apply amin_pos | apply Rmax_l].
    - apply Rle_max_compat_l. assumption. }
  lra.
Qed.

Lemma clip_monotone (top : R) : monotone (clip top).
Proof. intros x y Hxy. unfold clip. apply Rle_max_compat_r. assumption. Qed.

Lemma power_to_db_unfold (S : matrix) (r : R) :
  np_max S = Ok r ->
  power_to_db S ref_np_max = Ok (mmap (clip 0) (mmap (db_rel r) S)).
Proof.
  intros Hr. unfold power_to_db. rewrite Hr.
  fold (db_rel r).
  rewrite (np_max_mmap (db_rel r) S r (db_rel_monotone r) Hr).
  replace (db_rel r r) with 0 by (unfold db_rel; lra).
  reflexivity.
Qed.

(** The loudest entry of the converted matrix is 0 dB. *)
Lemma power_to_db_max (S D : matrix) :
  power_to_db S ref_np_max = Ok D -> np_max D = Ok 0.
Proof.
  intros H.
  destruct (np_max S) as [r|e] eqn:Hr.
  - rewrite (power_to_db_unfold S r Hr) in H. injection H as <-.
    rewrite (np_max_mmap (clip 0) _ (db_rel r r)).
    + f_equal. unfold clip, db_rel, top_db.
      replace (10 * log10 (Rmax amin r) - 10 * log10 (Rmax amin r)) with 0
        by lra.
      apply Rmax_left. lra.
    + apply clip_monotone.
    + apply np_max_mmap; [apply db_rel_monotone | assumption].
  - unfold power_to_db in H. rewrite Hr in H. discriminate.
Qed.

Lemma power_to_db_ok (S : matrix) :
  concat S <> [] -> exists D, power_to_db S ref_np_max = Ok D.
Proof.
  intros H. destruct (np_max_ok S H) as [r Hr].
  eexists. apply (power_to_db_unfold S r Hr).
Qed.

Lemma above_floor_concat (S : matrix) :
  above_floor S -> Forall (fun x => amin <= x) (concat S).
Proof.
  induction 1 as [|row S Hrow _ IH]; simpl.
  - constructor.
  - apply Forall_app. split; assumption.
Qed.

Lemma np_max_above_floor (S : matrix) (r : R) :
  above_floor S -> np_max S = Ok r -> amin <= r.
Proof.
  intros Hfl. apply above_floor_concat in Hfl. unfold np_max.
  destruct (concat S) as [|x xs]; [discriminate|].
  intros H. injection H as <-.
  apply Forall_inv in Hfl.
  eapply Rle_trans; [exact Hfl | apply fold_max_ge].
Qed.

Lemma scale_monotone (k : R) : 0 < k -> monotone (fun x => k * x).
Proof. intros Hk x y Hxy. apply Rmult_le_compat_l; lra. Qed.

Lemma mmap_ext_in (f g : R -> R) (S : matrix) :
  (forall x, In x (concat S) -> f x = g x) -> mmap f S = mmap g S.
Proof.
  intros H. unfold mmap. apply map_ext_in. intros row Hrow.
  apply map_ext_in. intros x Hx. apply H.
  apply in_concat. exists row. split; assumption.
Qed.

Lemma mmap_mmap (f g : R -> R) (S : matrix) :
  mmap f (mmap g S) = mmap (fun x => f (g x)) S.
Proof.
  unfold mmap. rewrite map_map. apply map_ext. intros row. apply map_map.
Qed.

(** Above the floor the conversion does not see the absolute level. *)
Lemma power_to_db_scale (k : R) (S : matrix) :
  0 < k -> above_floor S -> above_floor (scale k S) ->
  power_to_db (scale k S) ref_np_max = power_to_db S ref_np_max.
Proof.
  intros Hk HS HkS.
  destruct (np_max S) as [r|e] eqn:Hr.
  - assert (Hkr : np_max (scale k S) = Ok (k * r)).
    { apply (np_max_mmap (fun x => k * x)); [now apply scale_monotone|exact Hr]. }
    rewrite (power_to_db_unfold _ _ Hkr), (power_to_db_unfold _ _ Hr).
    f_equal. f_equal. unfold scale. rewrite mmap_mmap.
    apply mmap_ext_in. intros x Hx.
    assert (Hx1 : amin <= x).
    { apply above_floor_concat in HS.
      rewrite Forall_forall in HS. now apply HS. }
    assert (Hr1 : amin <= r) by exact (np_max_above_floor S r HS Hr).
    assert (Hkr1 : amin <= k * r)
      by exact (np_max_above_floor (scale k S) (k * r) HkS Hkr).
    assert (Hkx1 : amin <= k * x).
    { apply above_floor_concat in HkS. unfold scale in HkS.
      rewrite concat_mmap in HkS. rewrite Forall_forall in HkS.
      apply HkS. now apply in_map. }
    pose proof amin_pos.
    unfold db_rel.
    rewrite !Rmax_right by assumption.
    rewrite !log10_mult by lra. lra.
  - unfold power_to_db.
    assert (He : np_max (scale k S) = Raise e).
    { unfold np_max in *. unfold scale. rewrite concat_mmap.
      destruct (concat S); [exact Hr | discriminate]. }
    now rewrite Hr, He.
Qed.

End DecibelFacts.

(* ================================================================= *)
(** ** One conversion *)

Lemma skipn_length_app {A} (l l' : list A) : skipn (length l) (l ++ l') = l'.
Proof. induction l; simpl; auto. Qed.

Lemma load_paths_app (l l' : list call) :
  load_paths (l ++ l') = (load_paths l ++ load_paths l')%list.
Proof.
  induction l as [|c l IH]; simpl; [reflexivity|].
  destruct c; simpl; rewrite ?IH; reflexivity.
Qed.

Arguments error_line : simpl never.
Arguments generated_line : simpl never.

Lemma is_ascii_app (a b : string) :
  is_ascii (a ++ b) = (is_ascii a && is_ascii b)%bool.
Proof.
  induction a as [|c a IH]; simpl; [reflexivity|].
  destruct c as [b0 b1 b2 b3 b4 b5 b6 top]. rewrite IH.
  now rewrite andb_assoc.
Qed.

(** The two lines of a conversion start with a mark outside ASCII. *)
Lemma is_ascii_generated_line (o : path) : is_ascii (generated_line o) = false.
Proof. reflexivity. Qed.

Lemma is_ascii_error_line (a : path) (e : exn) :
  is_ascii (error_line a e) = false.
Proof. reflexivity. Qed.

Ltac unfold_converter :=
  unfold create_spectrogram, try_except, create_spectrogram_try, bind,
    do_load, do_melspectrogram, do_power_to_db, do_pyplot, do_savefig,
    print, print_error, logged, written; simpl.

(** Follow one conversion through every outcome of its library calls
    and of its prints. *)
Ltac run_converter :=
  unfold_converter;
  repeat (match goal with
          | |- context [is_ascii (generated_line ?o)] =>
              rewrite (is_ascii_generated_line o)
          | |- context [is_ascii (error_line ?a ?e)] =>
              rewrite (is_ascii_error_line a e)
          | |- context [librosa_load ?E ?n ?p ?sr] =>
              destruct (librosa_load E n p sr) as [[? ?]|?] eqn:?
          | |- context [librosa_melspectrogram ?E ?y ?sr ?n ?f] =>
              destruct (librosa_melspectrogram E y sr n f) eqn:?
          | |- context [power_to_db ?S ?r] =>
              destruct (power_to_db S r) eqn:?
          | |- context [plt_savefig ?E ?n ?t ?c] =>
              destruct (plt_savefig E n t c) as [?|? [?|]] eqn:?
          | |- context [pyplot ?E ?t ?c] =>
              destruct (pyplot E t c) eqn:?
          | |- context [stdout_encode ?E ?l] =>
              destruct (stdout_encode E l) eqn:?
          end; simpl).

Section Converter.

Variable E : collaborators.

(** What one invocation leaves behind: one decode call followed by
    other calls, at most a write at the output path, and, when it
    returns, one printed line about this file; it raises only when the
    standard output cannot encode a line, and has then printed nothing. *)
Lemma create_spectrogram_post a o figsize dpi s :
  exists r s',
    create_spectrogram E a o figsize dpi s = (r, s')
    /\ (exists cs, trace s' = (trace s ++ Load a None :: cs)%list
                   /\ load_paths cs = [])
    /\ (fs s' = fs s \/ exists bytes, fs s' = update o (File bytes) (fs s))
    /\ match r with
       | Ok _ =>
           exists line, stdout s' = (stdout s ++ [line])%list
                        /\ file_line a o line
       | Raise e =>
           stdout s' = stdout s /\ exists line, stdout_encode E line = Some e
       end.
Proof.
  unfold file_line.
  run_converter.
  all: do 2 eexists; split; [reflexivity|]; simpl.
  all: split; [eexists; split; [rewrite <- ?app_assoc; reflexivity | reflexivity]|].
  all: split; [eauto|].
  all: first [ split; [reflexivity | eexists; eassumption]
             | eexists; split; [reflexivity|]; eauto ].
Qed.


End Converter.

(* ================================================================= *)
(** ** The batch *)

Lemma bind_ok {A B} (m : M A) (k : A -> M B) s b s' :
  bind m k s = (Ok b, s') ->
  exists a s1, m s = (Ok a, s1) /\ k a s1 = (Ok b, s').
Proof.
  unfold bind. destruct (m s) as [[a|e] s1]; intros H.
  - exists a, s1. split; [reflexivity | assumption].
  - discriminate.
Qed.

Lemma bind_run {A B} (m : M A) (k : A -> M B) s a s1 :
  m s = (Ok a, s1) -> bind m k s = k a s1.
Proof. intros H. unfold bind. now rewrite H. Qed.

Lemma bind_path_exists {B} (p : path) (k : bool -> M B) s :
  bind (path_exists p) k s = k (exists_ (fs s) p) s.
Proof. reflexivity. Qed.

Lemma bind_path_glob {B} (p : path) (pat : string) (k : list path -> M B) s :
  bind (path_glob p pat) k s = k (glob (fs s) p pat) s.
Proof. reflexivity. Qed.

Section Printing.

Variable E : collaborators.

Lemma print_ok (line : string) (s s1 : state) :
  print E line s = (Ok tt, s1) ->
  s1 = {| fs := fs s; stdout := (stdout s ++ [line])%list; trace := trace s |}.
Proof.
  unfold print. destruct (print_error E line); intros H.
  - discriminate.
  - now injection H as <-.
Qed.

Lemma print_raise (line : string) (s s1 : state) (e : exn) :
  print E line s = (Raise e, s1) ->
  s1 = s /\ is_ascii line = false /\ stdout_encode E line = Some e.
Proof.
  unfold print, print_error. destruct (is_ascii line); [discriminate|].
  destruct (stdout_encode E line); [|discriminate].
  intros H. injection H as <- <-. auto.
Qed.

Lemma print_ascii (line : string) (s : state) :
  is_ascii line = true ->
  print E line s
  = (Ok tt, {| fs := fs s; stdout := (stdout s ++ [line])%list; trace := trace s |}).
Proof. intros H. unfold print, print_error. now rewrite H. Qed.

Lemma print_encoded (line : string) (s : state) :
  encodes_all E ->
  print E line s
  = (Ok tt, {| fs := fs s; stdout := (stdout s ++ [line])%list; trace := trace s |}).
Proof.
  intros H. unfold print, print_error. rewrite H.
  now destruct (is_ascii line).
Qed.

(** A print followed by more: the rest runs after the line was
    printed, or the print raises and nothing has changed. *)
Lemma bind_print_cases {B} (line : string) (k : unit -> M B) s r s' :
  bind (print E line) k s = (r, s') ->
  k tt {| fs := fs s; stdout := (stdout s ++ [line])%list; trace := trace s |}
  = (r, s')
  \/ exists e,
       r = Raise e /\ s' = s /\ is_ascii line = false
       /\ stdout_encode E line = Some e.
Proof.
  unfold bind. destruct (print E line s) as [[[]|e] s1] eqn:Hp; intros H.
  - apply print_ok in Hp. subst s1. now left.
  - apply print_raise in Hp. destruct Hp as (-> & Ha & He).
    injection H as <- <-. right. exists e. auto.
Qed.

Lemma print_all_ok (lines : list string) : forall s s1,
  print_all E lines s = (Ok tt, s1) ->
  s1 = {| fs := fs s; stdout := (stdout s ++ lines)%list; trace := trace s |}.
Proof.
  induction lines as [|l lines IH]; intros s s1 H.
  - simpl in H. unfold ret in H. injection H as <-.
    rewrite app_nil_r. now destruct s.
  - cbn [print_all] in H. apply bind_ok in H.
    destruct H as ([] & s2 & Hp & H). apply print_ok in Hp. subst s2.
    apply IH in H. subst s1. simpl. now rewrite <- app_assoc.
Qed.

Lemma print_all_run (lines : list string) : forall s,
  forallb is_ascii lines = true ->
  print_all E lines s =
  (Ok tt, {| fs := fs s; stdout := (stdout s ++ lines)%list; trace := trace s |}).
Proof.
  induction lines as [|l lines IH]; intros s H.
  - simpl. unfold ret. rewrite app_nil_r. now destruct s.
  - simpl in H. apply andb_prop in H. destruct H as [Hl H].
    cbn [print_all]. rewrite (bind_run _ _ _ _ _ (print_ascii l s Hl)).
    rewrite IH by assumption. simpl. now rewrite <- app_assoc.
Qed.

(** A print that fails leaves the state as it was. *)
Lemma print_all_raise (lines : list string) : forall s s1 e,
  print_all E lines s = (Raise e, s1) -> fs s1 = fs s.
Proof.
  induction lines as [|l lines IH]; intros s s1 e H.
  - discriminate.
  - cbn [print_all] in H. unfold bind at 1 in H.
    destruct (print E l s) as [[[]|e0] s2] eqn:Hp.
    + apply print_ok in Hp. subst s2. apply IH in H. exact H.
    + apply print_raise in Hp. destruct Hp as (-> & _).
      now injection H as _ <-.
Qed.

End Printing.

(** Counts, the header, the footer and the lines about a listed method
    are pure ASCII. *)
Lemma is_ascii_uint (d : Decimal.uint) :
  is_ascii (NilEmpty.string_of_uint d) = true.
Proof. induction d; simpl; auto. Qed.

Lemma is_ascii_str_nat (n : nat) : is_ascii (str_nat n) = true.
Proof. apply is_ascii_uint. Qed.

Lemma header_ascii : forallb is_ascii header = true.
Proof. reflexivity. Qed.

Lemma footer_ascii (p t : nat) : forallb is_ascii (footer p t) = true.
Proof.
  assert (Ht : is_ascii (total_line p t) = true).
  { unfold total_line. rewrite !is_ascii_app, !is_ascii_str_nat. reflexivity. }
  unfold footer. cbn [forallb]. rewrite Ht. reflexivity.
Qed.

Lemma error_no_input_ascii : is_ascii error_no_input = true.
Proof. reflexivity. Qed.

Lemma warning_line_ascii (m : string) :
  is_ascii m = true -> is_ascii (warning_line m) = true.
Proof.
  intros H. unfold warning_line. rewrite !is_ascii_app, H. reflexivity.
Qed.


Lemma methods_ascii (m : string) : In m methods -> is_ascii m = true.
Proof.
  assert (H : forallb is_ascii methods = true) by reflexivity.
  rewrite forallb_forall in H. apply H.
Qed.

Lemma mkdir_post (p : path) s s' :
  mkdir_exist_ok p s = (Ok tt, s') ->
  stdout s' = stdout s /\ trace s' = trace s
  /\ (fs s' = fs s \/ fs s' = update p (Dir []) (fs s)).
Proof.
  unfold mkdir_exist_ok.
  destruct (lookup (fs s) p) as [[b|es]|].
  - discriminate.
  - intros H. injection H as <-. auto.
  - destruct (lookup (fs s) (parent p)) as [[b|es]|]; try discriminate.
    intros H. injection H as <-. simpl. auto.
Qed.


Section Driver.

Variable E : collaborators.

(** The inner loop.  Whatever its outcome, the tree changes only by
    pictures written into the output directory.  When it returns it has
    counted every file, printed one line per file and decoded the files
    in order; it raises only when the standard output cannot encode a
    line. *)
Lemma for_wav_files_post (od : path) (files : list path) : forall p s,
  exists r s',
    for_wav_files E od files p s = (r, s')
    /\ (forall P : node -> Prop,
          (forall n nm b, P n -> P (update (div od nm) (File b) n)) ->
          P (fs s) -> P (fs s'))
    /\ match r with
       | Ok p' =>
           p' = p + length files
           /\ exists lines,
                stdout s' = (stdout s ++ lines)%list
                /\ Forall2 (fun f l => file_line f (output_file od f) l)
                           files lines
                /\ load_paths (trace s')
                   = (load_paths (trace s) ++ files)%list
       | Raise e => exists line, stdout_encode E line = Some e
       end.
Proof.
  induction files as [|f files IH]; intros p s.
  - exists (Ok p), s. simpl. unfold ret. split; [reflexivity|].
    split; [auto|]. split; [lia|]. exists [].
    rewrite !app_nil_r. repeat split. constructor.
  - cbn [for_wav_files]. unfold bind at 1.
    destruct (create_spectrogram_post E f (output_file od f)
                default_figsize default_dpi s)
      as (r1 & s1 & Hrun & (cs & Htr & Hcs) & Hfs & Hr1).
    rewrite Hrun.
    assert (Hfs1 : forall P : node -> Prop,
               (forall n nm b, P n -> P (update (div od nm) (File b) n)) ->
               P (fs s) -> P (fs s1)).
    { intros P HP H0. destruct Hfs as [->|[b ->]]; [assumption|].
      unfold output_file. now apply HP. }
    destruct r1 as [[]|e1].
    + destruct Hr1 as (line & Hout & Hline).
      destruct (IH (p + 1) s1) as (r & s' & Hrun' & Hfs' & Hr).
      exists r, s'. split; [exact Hrun'|]. split.
      * intros P HP H0. apply Hfs'; [assumption|]. now apply Hfs1.
      * destruct r as [p'|e]; [|exact Hr].
        destruct Hr as (Hp' & lines & Hout' & Hlines & Htr').
        split; [simpl; lia|]. exists (line :: lines). repeat split.
        -- rewrite Hout', Hout, <- app_assoc. reflexivity.
        -- constructor; assumption.
        -- rewrite Htr', Htr, load_paths_app. simpl. rewrite Hcs.
           rewrite <- app_assoc. reflexivity.
    + destruct Hr1 as (_ & line & Hline).
      exists (Raise e1), s1. split; [reflexivity|]. split; [exact Hfs1|].
      exists line. exact Hline.
Qed.

Lemma for_wav_files_ok (od : path) (files : list path) p s p' s' :
  for_wav_files E od files p s = (Ok p', s') ->
  p' = p + length files
  /\ (exists lines,
        stdout s' = (stdout s ++ lines)%list
        /\ Forall2 (fun f l => file_line f (output_file od f) l) files lines
        /\ load_paths (trace s') = (load_paths (trace s) ++ files)%list)
  /\ (forall P : node -> Prop,
        (forall n nm b, P n -> P (update (div od nm) (File b) n)) ->
        P (fs s) -> P (fs s')).
Proof.
  intros H. destruct (for_wav_files_post od files p s)
    as (r & s1 & Hrun & Hfs & Hr).
  rewrite H in Hrun. injection Hrun as <- <-.
  destruct Hr as [Hp Hlines]. auto.
Qed.

Lemma for_wav_files_frame (od : path) (files : list path) p s r s' :
  for_wav_files E od files p s = (r, s') ->
  forall P : node -> Prop,
    (forall n nm b, P n -> P (update (div od nm) (File b) n)) ->
    P (fs s) -> P (fs s').
Proof.
  intros H. destruct (for_wav_files_post od files p s)
    as (r1 & s1 & Hrun & Hfs & _).
  rewrite H in Hrun. injection Hrun as <- <-. exact Hfs.
Qed.

Lemma for_wav_files_raise (od : path) (files : list path) p s e s' :
  for_wav_files E od files p s = (Raise e, s') ->
  exists line, stdout_encode E line = Some e.
Proof.
  intros H. destruct (for_wav_files_post od files p s)
    as (r1 & s1 & Hrun & _ & Hr).
  rewrite H in Hrun. injection Hrun as <- <-. exact Hr.
Qed.

Lemma for_wav_files_returns (od : path) (files : list path) p s :
  encodes_all E ->
  exists s', for_wav_files E od files p s = (Ok (p + length files), s').
Proof.
  intros Henc. destruct (for_wav_files_post od files p s)
    as (r & s1 & Hrun & _ & Hr).
  destruct r as [p'|e].
  - destruct Hr as [-> _]. eauto.
  - destruct Hr as [line Hline]. rewrite Henc in Hline. discriminate.
Qed.

Lemma same_input_update n0 n x p v :
  x <> "input_wsj0c3" -> same_input n0 n -> same_input n0 (update (x :: p) v n).
Proof.
  intros Hx H q. rewrite TreeFacts.lookup_update_other by assumption. apply H.
Qed.

Lemma same_input_exists n0 n p :
  same_input n0 n -> exists_ n ("input_wsj0c3" :: p) = exists_ n0 ("input_wsj0c3" :: p).
Proof. intros H. unfold exists_. now rewrite H. Qed.

Lemma same_input_glob n0 n p pat :
  same_input n0 n -> glob n ("input_wsj0c3" :: p) pat = glob n0 ("input_wsj0c3" :: p) pat.
Proof. intros H. unfold glob. now rewrite H. Qed.

(** The outer loop, for a run that does not raise. *)
Lemma for_methods_post (n0 : node) (ms : list string) : forall t p s t' p' s',
  same_input n0 (fs s) ->
  for_methods E ms t p s = (Ok (t', p'), s') ->
  same_input n0 (fs s')
  /\ t' = t + length (flat_map (discovered_in n0) ms)
  /\ p' = p + length (flat_map (discovered_in n0) ms)
  /\ load_paths (trace s')
     = (load_paths (trace s) ++ flat_map (discovered_in n0) ms)%list
  /\ exists blocks,
       stdout s' = (stdout s ++ concat blocks)%list
       /\ Forall2 (method_block n0) ms blocks.
Proof.
  induction ms as [|m ms IH]; intros t p s t' p' s' Hin Hrun.
  - simpl in Hrun. unfold ret in Hrun. injection Hrun as <- <- <-.
    simpl. rewrite !Nat.add_0_r, app_nil_r. repeat split; auto.
    exists []. simpl. rewrite app_nil_r. split; [reflexivity | constructor].
  - cbn [for_methods] in Hrun.
    apply bind_ok in Hrun. destruct Hrun as (present & s1 & Hex & Hrun).
    unfold path_exists in Hex. injection Hex as <- <-.
    change (div input_dir m) with ["input_wsj0c3"; m] in *.
    rewrite (same_input_exists n0 (fs s) [m] Hin) in Hrun.
    assert (Hblock : forall b, (if exists_ n0 ["input_wsj0c3"; m]
                                then exists lines,
                                  b = processing_line m
                                        (length (discovered_in n0 m)) :: lines
                                  /\ Forall2 (fun f l => file_line f
                                        (output_file (div output_dir m) f) l)
                                        (discovered_in n0 m) lines
                                else b = [warning_line m])
                               -> method_block n0 m b).
    { intros b Hb. exact Hb. }
    destruct (exists_ n0 ["input_wsj0c3"; m]) eqn:Hpresent; cbn [negb] in Hrun.
    + apply bind_ok in Hrun. destruct Hrun as ([] & s2 & Hmk & Hrun).
      apply mkdir_post in Hmk. destruct Hmk as (Hout2 & Htr2 & Hfs2).
      assert (Hin2 : same_input n0 (fs s2)).
      { destruct Hfs2 as [->| ->]; [assumption|].
        apply same_input_update; [discriminate | assumption]. }
      apply bind_ok in Hrun. destruct Hrun as (wav_files & s3 & Hglob & Hrun).
      unfold path_glob in Hglob. injection Hglob as <- <-.
      rewrite (same_input_glob n0 (fs s2) [m] "*.wav" Hin2) in Hrun.
      apply bind_ok in Hrun. destruct Hrun as ([] & s4 & Hpr & Hrun).
      apply print_ok in Hpr. subst s4.
      apply bind_ok in Hrun. destruct Hrun as (p1 & s5 & Hfiles & Hrun).
      apply for_wav_files_ok in Hfiles.
      destruct Hfiles as (-> & (lines & Hout5 & Hlines & Htr5) & Hfs5).
      simpl in Hout5, Htr5.
      cbn [fs] in Hfs5.
      assert (Hin5 : same_input n0 (fs s5)).
      { apply (Hfs5 (same_input n0)); [|assumption].
        intros n nm b Hn.
        change (div (div output_dir m) nm) with ("spectrograms" :: [m; nm]).
        apply same_input_update; [discriminate | assumption]. }
      change (glob n0 ["input_wsj0c3"; m] "*.wav") with (discovered_in n0 m) in *.
      destruct (IH _ _ _ _ _ _ Hin5 Hrun) as (Hin' & Ht & Hp & Htr & blocks & Hout & Hbl).
      simpl. rewrite length_app. repeat split.
      * assumption.
      * lia.
      * lia.
      * rewrite Htr, Htr5, Htr2, <- app_assoc. reflexivity.
      * exists ((processing_line m (length (discovered_in n0 m)) :: lines)
                 :: blocks).
        split.
        -- rewrite Hout, Hout5, Hout2. simpl. rewrite <- !app_assoc. reflexivity.
        -- constructor; [|assumption]. apply Hblock. exists lines. auto.
    + apply bind_ok in Hrun. destruct Hrun as ([] & s2 & Hpr & Hrun).
      apply print_ok in Hpr. subst s2.
      apply IH in Hrun; [|exact Hin].
      destruct Hrun as (Hin' & Ht & Hp & Htr & blocks & Hout & Hbl).
      assert (Hnone : discovered_in n0 m = []).
      { unfold discovered_in, glob.
        change (div input_dir m) with ["input_wsj0c3"; m].
        unfold exists_ in Hpresent.
        destruct (lookup n0 ["input_wsj0c3"; m]); [discriminate | reflexivity]. }
      simpl. rewrite Hnone. simpl. repeat split; try assumption.
      exists ([warning_line m] :: blocks). split.
      * rewrite Hout. simpl. rewrite <- app_assoc. reflexivity.
      * constructor; [|assumption]. apply Hblock. reflexivity.
Qed.

End Driver.

(** Writes below the output root keep the output directories in place. *)
Lemma is_dir_output_update n y r v :
  is_dir n output_dir = true ->
  is_dir (update ("spectrograms" :: y :: r) v n) output_dir = true.
Proof.
  rewrite !TreeFacts.is_dir_kind. intros H.
  rewrite TreeFacts.kind_update; [assumption|].
  intros r' Hr. discriminate Hr.
Qed.

Lemma is_file_method_write n m nm v m' :
  is_file n (div output_dir m') = false ->
  is_file (update (div (div output_dir m) nm) v n) (div output_dir m') = false.
Proof.
  rewrite !TreeFacts.is_file_kind. intros H.
  rewrite TreeFacts.kind_update; [assumption|].
  intros r' Hr. discriminate Hr.
Qed.

Lemma is_file_method_mkdir n m m' :
  is_dir n output_dir = true ->
  is_file n (div output_dir m') = false ->
  is_file (update (div output_dir m) (Dir []) n) (div output_dir m') = false.
Proof.
  intros Hd Hf. destruct (String.eqb m m') eqn:Hm.
  - apply String.eqb_eq in Hm. subst m'. unfold is_file.
    change (div output_dir m) with ["spectrograms"; m].
    now rewrite TreeFacts.lookup_update_child.
  - apply String.eqb_neq in Hm.
    rewrite TreeFacts.is_file_kind in *.
    rewrite TreeFacts.kind_update; [assumption|].
    intros r' Hr. injection Hr as Hr _. congruence.
Qed.

Section Totality.

Variable E : collaborators.



(** With the input root missing the driver prints one line and stops. *)
Lemma main_missing_root s :
  exists_ (fs s) input_dir = false ->
  main E s = (Ok tt, {| fs := fs s;
                        stdout := (stdout s ++ [error_no_input])%list;
                        trace := trace s |}).
Proof.
  intros H. unfold main.
  rewrite bind_path_exists, H. cbn [negb].
  apply print_ascii. exact error_no_input_ascii.
Qed.

(** A run that reaches the footer: what was printed and decoded. *)
Lemma main_post s s' :
  exists_ (fs s) input_dir = true ->
  main E s = (Ok tt, s') ->
  exists blocks,
    stdout s'
    = (stdout s ++ header ++ concat blocks
       ++ footer (length (discovered (fs s))) (length (discovered (fs s))))%list
    /\ Forall2 (method_block (fs s)) methods blocks
    /\ load_paths (trace s') = (load_paths (trace s) ++ discovered (fs s))%list
    /\ same_input (fs s) (fs s').
Proof.
  intros Hin Hrun. unfold main in Hrun.
  rewrite bind_path_exists, Hin in Hrun. cbn [negb] in Hrun.
  apply bind_ok in Hrun. destruct Hrun as ([] & s1 & Hmk & Hrun).
  apply mkdir_post in Hmk. destruct Hmk as (Hout1 & Htr1 & Hfs1).
  assert (Hin1 : same_input (fs s) (fs s1)).
  { destruct Hfs1 as [->| ->]; [intros q; reflexivity|].
    apply same_input_update; [discriminate | intros q; reflexivity]. }
  apply bind_ok in Hrun. destruct Hrun as ([] & s2 & Hhead & Hrun).
  apply print_all_ok in Hhead. subst s2.
  apply bind_ok in Hrun. destruct Hrun as ([t p] & s3 & Hloop & Hrun).
  apply for_methods_post with (n0 := fs s) in Hloop; [|exact Hin1].
  destruct Hloop as (Hin3 & Ht & Hp & Htr3 & blocks & Hout3 & Hblocks).
  apply print_all_ok in Hrun. subst s'.
  simpl in *. subst t p.
  exists blocks. repeat split.
  - rewrite Hout3, Hout1. fold (discovered (fs s)).
    rewrite <- !app_assoc. reflexivity.
  - assumption.
  - rewrite Htr3, Htr1. reflexivity.
  - assumption.
Qed.


End Totality.

(* ================================================================= *)
(** ** The converter: rendering parameters, calls and failures *)

Ltac norm_calls :=
  unfold calls_made; cbn [trace snd fst];
  rewrite <- ?app_assoc; cbn [app]; rewrite skipn_length_app.




(** C8: the converter starts by decoding the file with [sr=None], that
    is at the rate stored in the file, and hands the decoded samples and
    that same rate to the mel transform with 128 bands and an upper
    frequency of 8000 Hz. *)
Theorem native_rate_and_mel_parameters (E : collaborators)
    (audio_path output_path : path) (figsize : Q * Q) (dpi : Q) (s : state) :
  exists rest,
    calls_made s (snd (create_spectrogram E audio_path output_path
                         figsize dpi s))
    = Load audio_path None :: rest
    /\ match librosa_load E (fs s) audio_path None with
       | Ok (y, sr) =>
           exists rest', rest = Melspectrogram y sr 128 8000 :: rest'
       | Raise _ => rest = []
       end.
Proof.
  run_converter; norm_calls; eexists; (split; [reflexivity|]); eauto.
Qed.

(** C2, as stated, fails: on a full disk the save call raises after its
    first bytes, the converter catches the error and returns, and the
    truncated file stays at the destination. *)
Lemma partial_file_left_behind :
  ~ atomic_on_failure Samples.disk_full Samples.a_wav Samples.a_png
      (Samples.start Samples.prepared).
Proof.
  intros H.
  destruct (H "[Errno 28] No space left on device"
              (snd (create_spectrogram_try Samples.disk_full Samples.a_wav
                      Samples.a_png default_figsize default_dpi
                      (Samples.start Samples.prepared))))
    as [Hsame | (tr & c & png & Hsaved & _)].
  - vm_compute. reflexivity.
  - vm_compute in Hsame. discriminate Hsame.
  - simpl in Hsaved. discriminate Hsaved.
Qed.


(** C2 (amended): when the body of the converter raises,
    - if the save call was not reached (decode, transform or drawing
      failed) the tree is untouched;
    - otherwise the tree differs at most at the destination, which holds
      the bytes the failed save left there, or the whole picture when a
      later call raised;
    - the handler removes nothing: the tree after the converter returns
      is the tree at the moment of the failure. *)
Theorem failure_leaves_what_save_left (E : collaborators)
    (audio_path output_path : path) (figsize : Q * Q) (dpi : Q)
    (s s1 : state) (e : exn) :
  create_spectrogram_try E audio_path output_path figsize dpi s
  = (Raise e, s1) ->
  (saving_started (calls_made s s1) = false -> fs s1 = fs s)
  /\ (fs s1 = fs s
      \/ (exists tr c e' bytes,
            plt_savefig E (fs s) tr c = SaveFailed e' (Some bytes)
            /\ fs s1 = update output_path (File bytes) (fs s))
      \/ (exists tr c png,
            plt_savefig E (fs s) tr c = Saved png
            /\ fs s1 = update output_path (File png) (fs s)))
  /\ fs (snd (create_spectrogram E audio_path output_path figsize dpi s))
     = fs s1.
Proof.
  intros H. split; [|split].
  - revert H. run_converter; intros H; inversion H; subst; clear H;
      norm_calls; simpl; intros Hs;
      first [reflexivity | discriminate Hs].
  - revert H. run_converter; intros H; inversion H; subst; clear H; simpl;
      first [ left; reflexivity
            | right; left; do 4 eexists; split; [eassumption | reflexivity]
            | right; right; do 3 eexists; split; [eassumption | reflexivity] ].
  - unfold create_spectrogram, try_except. rewrite H.
    unfold print. destruct (print_error E (error_line audio_path e));
      reflexivity.
Qed.

Lemma failure_leaves_what_save_left_witness :
  let s := Samples.start Samples.prepared in
  let s1 := snd (create_spectrogram_try Samples.disk_full Samples.a_wav
                   Samples.a_png default_figsize default_dpi s) in
  (saving_started (calls_made s s1) = false -> fs s1 = fs s)
  /\ (fs s1 = fs s
      \/ (exists tr c e' bytes,
            plt_savefig Samples.disk_full (fs s) tr c
            = SaveFailed e' (Some bytes)
            /\ fs s1 = update Samples.a_png (File bytes) (fs s))
      \/ (exists tr c png,
            plt_savefig Samples.disk_full (fs s) tr c = Saved png
            /\ fs s1 = update Samples.a_png (File png) (fs s)))
  /\ fs (snd (create_spectrogram Samples.disk_full Samples.a_wav
                Samples.a_png default_figsize default_dpi s))
     = fs s1.
Proof.
  intros s s1.
  apply (failure_leaves_what_save_left Samples.disk_full Samples.a_wav
           Samples.a_png default_figsize default_dpi s s1
           "[Errno 28] No space left on device").
  vm_compute. reflexivity.
Defined.

(* ================================================================= *)
(** ** The driver *)


(** That run stops in the first method directory: the header and the
    line of the directory are printed, the first file is decoded and
    drawn, the second file is never reached and no footer is printed. *)
Example undecodable_name_run :
  let r := main Samples.strict_stdout (Samples.start Samples.bad_name_tree) in
  fst r
  = Raise "'utf-8' codec can't encode character '\udcff': surrogates not allowed"
  /\ load_paths (trace (snd r))
     = [["input_wsj0c3"; "clean"; Samples.bad_name]]
  /\ stdout (snd r) = (header ++ [processing_line "clean" 2])%list
  /\ is_file (fs (snd r))
       ["spectrograms"; "clean"; stem_of_name Samples.bad_name ++ ".png"]
     = true.
Proof. vm_compute. repeat split. Qed.

(** On a standard output without the two marks no bad input is needed:
    the first file is decoded, drawn and saved, the success line cannot
    be printed, the handler cannot print the failure line either, and the
    run stops there. *)
Example unprintable_marks_run :
  let r := main Samples.latin1_stdout (Samples.start Samples.tree) in
  fst r
  = Raise "'latin-1' codec can't encode character '✗' in position 0: ordinal not in range(256)"
  /\ load_paths (trace (snd r)) = [Samples.a_wav]
  /\ stdout (snd r) = (header ++ [processing_line "clean" 2])%list
  /\ is_file (fs (snd r)) Samples.a_png = true.
Proof. vm_compute. repeat split. Qed.



(** The driver itself is not shielded: a regular file called
    [spectrograms] makes [mkdir] raise and the run stops before the
    header. *)
Example output_root_in_the_way :
  main Samples.working
    (Samples.start (Dir [("input_wsj0c3", Dir []);
                         ("spectrograms", File "not a directory")]))
  = (Raise "[Errno 17] File exists: 'spectrograms'",
     Samples.start (Dir [("input_wsj0c3", Dir []);
                         ("spectrograms", File "not a directory")])).
Proof. reflexivity. Qed.

(** C4: with the input root missing the driver prints the error line,
    leaves the tree as it was (so the output root is not created), calls
    no library, and returns normally. *)
Theorem missing_input_root (E : collaborators) (s : state) :
  exists_ (fs s) input_dir = false ->
  exists s',
    main E s = (Ok tt, s')
    /\ stdout s' = (stdout s ++ [error_no_input])%list
    /\ fs s' = fs s
    /\ exists_ (fs s') output_dir = exists_ (fs s) output_dir
    /\ trace s' = trace s.
Proof.
  intros H. eexists. split; [apply (main_missing_root E s H)|].
  simpl. repeat split; reflexivity.
Qed.

Lemma missing_input_root_witness :
  exists s',
    main Samples.working (Samples.start Samples.empty_tree) = (Ok tt, s')
    /\ stdout s' = ["Error: Input directory 'input_wsj0c3' not found!"]
    /\ fs s' = Samples.empty_tree
    /\ exists_ (fs s') output_dir = false
    /\ trace s' = [].
Proof.
  destruct (missing_input_root Samples.working
              (Samples.start Samples.empty_tree))
    as (s' & Hrun & Hout & Hfs & Hroot & Htr).
  - reflexivity.
  - exists s'. repeat split; assumption.
Defined.

(* ================================================================= *)
(** ** The decibel reference *)

Module DecibelClaims.
Import DecibelFacts.
Local Open Scope R_scope.

Lemma inv_pow10_le_1 (n : nat) : / 10 ^ n <= 1.
Proof.
  apply Rle_trans with (/ 1).
  - apply Rinv_le_contravar; [lra|]. apply pow_R1_Rle. lra.
  - rewrite Rinv_1. lra.
Qed.

Lemma amin_le_1 : amin <= 1.
Proof. apply inv_pow10_le_1. Qed.

Lemma amin_le_inv_pow5 : amin <= / 10 ^ 5.
Proof.
  unfold amin. apply Rinv_le_contravar.
  - apply pow_lt. lra.
  - apply Rle_pow; [lra | lia].
Qed.

Lemma loud_db :
  power_to_db Samples.loud ref_np_max = Ok [[clip 0 (db_rel 1 1); clip 0 (db_rel 1 0)]].
Proof.
  assert (H : np_max Samples.loud = Ok 1).
  { unfold np_max, Samples.loud. simpl. f_equal. apply Rmax_left. lra. }
  rewrite (power_to_db_unfold _ _ H). reflexivity.
Qed.

Lemma quiet_db :
  power_to_db Samples.quiet ref_np_max
  = Ok [[clip 0 (db_rel (/ 10 ^ 5) (/ 10 ^ 5)); clip 0 (db_rel (/ 10 ^ 5) 0)]].
Proof.
  assert (Hq : Samples.quiet = [[/ 10 ^ 5; 0]]).
  { unfold Samples.quiet, Samples.loud, scale, mmap. cbn [map].
    now rewrite Rmult_1_r, Rmult_0_r. }
  assert (H : np_max Samples.quiet = Ok (/ 10 ^ 5)).
  { rewrite Hq. unfold np_max. cbn [concat app fold_left]. f_equal.
    apply Rmax_left. left. apply Rinv_0_lt_compat. apply pow_lt. lra. }
  rewrite (power_to_db_unfold _ _ H). rewrite Hq. reflexivity.
Qed.

Lemma empty_band_loud : clip 0 (db_rel 1 0) = -80.
Proof.
  pose proof amin_pos. pose proof amin_le_1.
  unfold clip, db_rel, top_db.
  rewrite (Rmax_left amin 0) by lra.
  rewrite (Rmax_right amin 1) by lra.
  unfold amin. rewrite log10_inv_pow10, log10_1. simpl INR.
  rewrite Rmax_right by lra. lra.
Qed.

Lemma empty_band_quiet : clip 0 (db_rel (/ 10 ^ 5) 0) = -50.
Proof.
  pose proof amin_pos. pose proof amin_le_inv_pow5.
  unfold clip, db_rel, top_db.
  rewrite (Rmax_left amin 0) by lra.
  rewrite (Rmax_right amin (/ 10 ^ 5)) by lra.
  unfold amin. rewrite !log10_inv_pow10. simpl INR.
  rewrite Rmax_left by lra. lra.
Qed.

(** C5, as stated, fails in its second half: the empty band of the loud
    recording is cut at -80 dB by [top_db], the same band of the quiet
    copy sits at -50 dB on the [amin] floor. *)
Lemma quiet_copy_differs :
  0 < / 10 ^ 5
  /\ power_to_db (scale (/ 10 ^ 5) Samples.loud) ref_np_max
     <> power_to_db Samples.loud ref_np_max.
Proof.
  split.
  - apply Rinv_0_lt_compat. apply pow_lt. lra.
  - fold Samples.quiet. rewrite quiet_db, loud_db. intros H.
    assert (H2 : clip 0 (db_rel (/ 10 ^ 5) 0) = clip 0 (db_rel 1 0))
      by congruence.
    rewrite empty_band_loud, empty_band_quiet in H2. lra.
Qed.

(** C5 (amended): the converter always converts with the matrix's own
    maximum as reference, and every matrix it draws has maximum exactly
    0; the conversion of a matrix with at least one entry succeeds with
    maximum 0; and multiplying all power values by a positive factor
    gives the identical decibel matrix provided every power value,
    before and after, is at least the floor [amin] = 1e-10. *)
Theorem decibel_reference :
  (forall E audio_path output_path figsize dpi s c,
      In c (calls_made s (snd (create_spectrogram E audio_path output_path
                                 figsize dpi s))) ->
      reference_call c)
  /\ (forall S, concat S <> [] ->
        exists D, power_to_db S ref_np_max = Ok D /\ np_max D = Ok 0)
  /\ (forall S k, 0 < k -> above_floor S -> above_floor (scale k S) ->
        power_to_db (scale k S) ref_np_max = power_to_db S ref_np_max).
Proof.
  split; [|split].
  - intros E a o figsize dpi s c.
    run_converter; norm_calls; cbn [In]; intros H;
      repeat (destruct H as [<-|H];
              [simpl; eauto using power_to_db_max|]); destruct H.
  - intros S HS. destruct (power_to_db_ok S HS) as [D HD].
    exists D. split; [assumption | eapply power_to_db_max; eassumption].
  - intros S k. apply power_to_db_scale.
Qed.

Lemma decibel_reference_witness :
  reference_call
    (nth 5 (calls_made (Samples.start Samples.prepared)
              (snd (create_spectrogram Samples.working Samples.a_wav
                      Samples.a_png default_figsize default_dpi
                      (Samples.start Samples.prepared)))) Close)
  /\ (exists D, power_to_db Samples.loud ref_np_max = Ok D /\ np_max D = Ok 0)
  /\ power_to_db (scale 3 [[1; 2]]) ref_np_max
     = power_to_db [[1; 2]] ref_np_max.
Proof.
  destruct decibel_reference as (Hcall & Hmax & Hscale).
  pose proof amin_le_1 as Hamin.
  split; [|split].
  - apply (Hcall Samples.working Samples.a_wav Samples.a_png
             default_figsize default_dpi (Samples.start Samples.prepared)).
    cbv -[Rmax ln Rmult Rminus Rdiv Rplus Rinv pow IZR].
    do 5 right. left. reflexivity.
  - apply Hmax. discriminate.
  - apply Hscale.
    + lra.
    + unfold above_floor.
      repeat (first [apply Forall_cons | apply Forall_nil]); lra.
    + unfold above_floor, scale, mmap. cbn [map].
      repeat (first [apply Forall_cons | apply Forall_nil]); lra.
Defined.

End DecibelClaims.

(* ================================================================= *)
(** ** Discovery, counters and the order of methods *)

(** What [glob("*.wav")] returns: the direct entries of the directory
    whose name ends in [.wav], and nothing else. *)
Lemma glob_wav_spec (n : node) (d p : path) :
  In p (glob n d "*.wav") <->
  exists es nm child x,
    lookup n d = Some (Dir es) /\ In (nm, child) es
    /\ nm = x ++ ".wav" /\ p = div d nm.
Proof.
  unfold glob. split.
  - destruct (lookup n d) as [[b|es]|]; try (intros []).
    intros H. apply in_map_iff in H. destruct H as ([nm child] & <- & H).
    apply filter_In in H. destruct H as [Hin Hm]. simpl in Hm.
    apply PathFacts.fnmatch_star_wav in Hm. destruct Hm as [x Hx].
    exists es, nm, child, x. auto.
  - intros (es & nm & child & x & -> & Hin & Hx & ->).
    apply in_map_iff. exists (nm, child). split; [reflexivity|].
    apply filter_In. split; [assumption|]. simpl.
    apply PathFacts.fnmatch_star_wav. now exists x.
Qed.


Lemma absent_method_discovers_nothing (n : node) (m : string) :
  exists_ n (div input_dir m) = false -> discovered_in n m = [].
Proof.
  unfold discovered_in, glob, exists_.
  destruct (lookup n (div input_dir m)); [discriminate | reflexivity].
Qed.

(** C6: in a run that reaches the footer, the footer reports
    [processed/total] where [total] is the number of discovered files and
    [processed] the number of converter invocations (one decode call
    each); the inner loop adds one to the count for every file whatever
    the converter met, unless it is stopped by a print that the standard
    output cannot encode; on a standard output that encodes every text it
    always returns the count raised by the number of files. *)
Theorem running_totals (E : collaborators) (s s' : state) :
  exists_ (fs s) input_dir = true ->
  main E s = (Ok tt, s') ->
  (exists total processed body,
      stdout s' = (stdout s ++ header ++ body ++ footer processed total)%list
      /\ In (total_line processed total) (stdout s')
      /\ total = length (discovered (fs s))
      /\ length (load_paths (trace s'))
         = length (load_paths (trace s)) + processed)
  /\ (forall output_method_dir wav_files processed_files s0,
        match fst (for_wav_files E output_method_dir wav_files
                     processed_files s0) with
        | Ok r => r = processed_files + length wav_files
        | Raise e => exists line, stdout_encode E line = Some e
        end)
  /\ (encodes_all E ->
      forall output_method_dir wav_files processed_files s0,
        fst (for_wav_files E output_method_dir wav_files processed_files s0)
        = Ok (processed_files + length wav_files)).
Proof.
  intros Hin Hrun. split; [|split].
  - destruct (main_post E s s' Hin Hrun) as (blocks & Hout & _ & Htr & _).
    exists (length (discovered (fs s))), (length (discovered (fs s))),
           (concat blocks).
    repeat split.
    + exact Hout.
    + rewrite Hout. apply in_or_app. right. apply in_or_app. right.
      apply in_or_app. right. simpl. auto.
    + rewrite Htr, length_app. reflexivity.
  - intros od files p s0.
    destruct (for_wav_files_post E od files p s0) as (r & s1 & H & _ & Hr).
    rewrite H. cbn [fst]. destruct r as [r|e]; [apply Hr | exact Hr].
  - intros Henc od files p s0.
    destruct (for_wav_files_returns E od files p s0 Henc) as (s1 & H).
    now rewrite H.
Qed.

Lemma running_totals_witness :
  exists s',
    main Samples.working (Samples.start Samples.tree) = (Ok tt, s')
    /\ In "Total files processed: 3/3" (stdout s')
    /\ In (error_line Samples.c_wav
             "Error opening file: Format not recognised.") (stdout s')
    /\ length (load_paths (trace s')) = 3.
Proof.
  exists (snd (main Samples.working (Samples.start Samples.tree))).
  destruct (running_totals Samples.working (Samples.start Samples.tree)
              (snd (main Samples.working (Samples.start Samples.tree))))
    as [(total & processed & body & Hout & Hline & Htotal & Hproc) _].
  - reflexivity.
  - vm_compute. reflexivity.
  - split; [vm_compute; reflexivity|].
    split; [|split].
    + subst total. vm_compute in Hproc. subst processed. exact Hline.
    + vm_compute. do 5 right. left. reflexivity.
    + vm_compute. reflexivity.
Defined.



(** C9: in a run that reaches the footer the two numbers of the ratio
    are both the number of discovered files; this number is fixed by the
    tree alone, so two runs on the same tree print the same ratio
    whatever their libraries made fail. *)
Theorem footer_ratio_is_total_over_total (E1 E2 : collaborators)
    (s s1 s2 : state) :
  exists_ (fs s) input_dir = true ->
  main E1 s = (Ok tt, s1) ->
  main E2 s = (Ok tt, s2) ->
  exists N body1 body2,
    N = length (discovered (fs s))
    /\ stdout s1 = (stdout s ++ header ++ body1 ++ footer N N)%list
    /\ stdout s2 = (stdout s ++ header ++ body2 ++ footer N N)%list
    /\ length (load_paths (trace s1)) = length (load_paths (trace s)) + N
    /\ length (load_paths (trace s2)) = length (load_paths (trace s)) + N.
Proof.
  intros Hin H1 H2.
  destruct (main_post E1 s s1 Hin H1) as (b1 & Hout1 & _ & Htr1 & _).
  destruct (main_post E2 s s2 Hin H2) as (b2 & Hout2 & _ & Htr2 & _).
  exists (length (discovered (fs s))), (concat b1), (concat b2).
  repeat split; try assumption.
  - rewrite Htr1, length_app. reflexivity.
  - rewrite Htr2, length_app. reflexivity.
Qed.

Lemma footer_ratio_is_total_over_total_witness :
  exists s1 s2,
    main Samples.working (Samples.start Samples.tree) = (Ok tt, s1)
    /\ main Samples.broken (Samples.start Samples.tree) = (Ok tt, s2)
    /\ exists body1 body2,
         stdout s1 = (header ++ body1 ++ footer 3 3)%list
         /\ stdout s2 = (header ++ body2 ++ footer 3 3)%list.
Proof.
  exists (snd (main Samples.working (Samples.start Samples.tree))),
         (snd (main Samples.broken (Samples.start Samples.tree))).
  destruct (footer_ratio_is_total_over_total Samples.working Samples.broken
              (Samples.start Samples.tree)
              (snd (main Samples.working (Samples.start Samples.tree)))
              (snd (main Samples.broken (Samples.start Samples.tree))))
    as (N & body1 & body2 & HN & Hout1 & Hout2 & _).
  - reflexivity.
  - vm_compute. reflexivity.
  - vm_compute. reflexivity.
  - split; [vm_compute; reflexivity|]. split; [vm_compute; reflexivity|].
    vm_compute in HN. subst N.
    exists body1, body2. split; [exact Hout1 | exact Hout2].
Defined.

(** C10: discovery lists the direct entries of a method directory whose
    name ends in the lower-case [.wav] and nothing else: no entry of a
    nested directory and no name ending in [.WAV] is ever listed; what a
    run counts and what it converts is exactly what was listed. *)
Theorem discovery_is_flat_and_case_sensitive (E : collaborators)
    (s s' : state) :
  exists_ (fs s) input_dir = true ->
  main E s = (Ok tt, s') ->
  (forall n d p,
      In p (glob n d "*.wav") <->
      exists es nm child x,
        lookup n d = Some (Dir es) /\ In (nm, child) es
        /\ nm = x ++ ".wav" /\ p = div d nm)
  /\ (forall n d sub nm, ~ In (div (div d sub) nm) (glob n d "*.wav"))
  /\ (forall n d y, ~ In (div d (y ++ ".WAV")) (glob n d "*.wav"))
  /\ load_paths (trace s') = (load_paths (trace s) ++ discovered (fs s))%list
  /\ In (total_line (length (discovered (fs s))) (length (discovered (fs s))))
        (stdout s').
Proof.
  intros Hin Hrun. split; [|split; [|split; [|split]]].
  - intros n d p. apply glob_wav_spec.
  - intros n d sub nm H. apply glob_wav_spec in H.
    destruct H as (es & nm' & child & x & _ & _ & _ & Heq).
    unfold div in Heq. apply (f_equal (@length string)) in Heq.
    rewrite !length_app in Heq. simpl in Heq. lia.
  - intros n d y H. apply glob_wav_spec in H.
    destruct H as (es & nm' & child & x & _ & _ & Hx & Heq).
    unfold div in Heq. apply app_inj_tail in Heq. destruct Heq as [_ Heq].
    pose proof (PathFacts.fnmatch_upper_wav y) as Hup.
    rewrite Heq, Hx in Hup.
    assert (Hlow : fnmatch "*.wav" (x ++ ".wav") = true)
      by (apply PathFacts.fnmatch_star_wav; now exists x).
    congruence.
  - destruct (main_post E s s' Hin Hrun) as (blocks & _ & _ & Htr & _).
    exact Htr.
  - destruct (main_post E s s' Hin Hrun) as (blocks & Hout & _).
    rewrite Hout. apply in_or_app. right. apply in_or_app. right.
    apply in_or_app. right. simpl. auto.
Qed.

Lemma discovery_is_flat_and_case_sensitive_witness :
  exists s',
    main Samples.working (Samples.start Samples.tree) = (Ok tt, s')
    /\ load_paths (trace s')
       = [["input_wsj0c3"; "clean"; "a.wav"];
          ["input_wsj0c3"; "clean"; "c.wav"];
          ["input_wsj0c3"; "noisy"; "n.wav"]]
    /\ ~ In ["input_wsj0c3"; "clean"; "sub"; "d.wav"]
            (glob Samples.tree ["input_wsj0c3"; "clean"] "*.wav")
    /\ ~ In ["input_wsj0c3"; "clean"; "b.WAV"]
            (glob Samples.tree ["input_wsj0c3"; "clean"] "*.wav").
Proof.
  exists (snd (main Samples.working (Samples.start Samples.tree))).
  destruct (discovery_is_flat_and_case_sensitive Samples.working
              (Samples.start Samples.tree)
              (snd (main Samples.working (Samples.start Samples.tree))))
    as (_ & Hnested & Hupper & Htr & _).
  - reflexivity.
  - vm_compute. reflexivity.
  - split; [vm_compute; reflexivity|]. split; [exact Htr|]. split.
    + apply (Hnested Samples.tree ["input_wsj0c3"; "clean"] "sub" "d.wav").
    + apply (Hupper Samples.tree ["input_wsj0c3"; "clean"] "b").
Defined.

(* ================================================================= *)
(** ** Further properties: output names *)

Module NameFacts.

Lemma rfind_dot_wav (x : string) :
  rfind "." (x ++ ".wav") = Some (String.length x).
Proof.
  induction x as [|c x IH]; simpl.
  - reflexivity.
  - now rewrite IH.
Qed.

Lemma substring_prefix (x y : string) :
  substring 0 (String.length x) (x ++ y) = x.
Proof.
  induction x as [|c x IH]; simpl.
  - destruct y; reflexivity.
  - now rewrite IH.
Qed.

(** The stem of a name that ends in [.wav] is what stands before it,
    unless nothing does. *)
Lemma stem_of_wav_name (x : string) :
  x <> "" -> stem_of_name (x ++ ".wav") = x.
Proof.
  intros Hx. unfold stem_of_name. rewrite rfind_dot_wav.
  assert (H0 : Nat.ltb 0 (String.length x) = true).
  { apply Nat.ltb_lt. destruct x; [congruence | simpl; lia]. }
  assert (H1 : Nat.ltb (String.length x)
                 (String.length (x ++ ".wav") - 1) = true).
  { apply Nat.ltb_lt. rewrite PathFacts.append_length. simpl. lia. }
  rewrite H0, H1. simpl. apply substring_prefix.
Qed.

Lemma output_file_name (od d : path) (nm : string) :
  output_file od (div d nm) = div od (stem_of_name nm ++ ".png").
Proof.
  unfold output_file, stem, name, div. now rewrite last_last.
Qed.

End NameFacts.

(** X1: the picture of [d/x.wav] is written to [od/x.png]: only the
    final [.wav] is replaced, whatever dots [x] contains; the one name
    without anything before the suffix, [.wav], keeps it and goes to
    [od/.wav.png]. *)
Theorem output_name_replaces_wav_suffix (od d : path) (x : string) :
  x <> "" ->
  output_file od (div d (x ++ ".wav")) = div od (x ++ ".png")
  /\ output_file od (div d ".wav") = div od ".wav.png".
Proof.
  intros Hx. rewrite !NameFacts.output_file_name. split.
  - now rewrite NameFacts.stem_of_wav_name.
  - reflexivity.
Qed.

Lemma output_name_replaces_wav_suffix_witness :
  output_file ["spectrograms"; "clean"]
    ["input_wsj0c3"; "clean"; "take.2.wav"]
  = ["spectrograms"; "clean"; "take.2.png"]
  /\ output_file ["spectrograms"; "clean"] ["input_wsj0c3"; "clean"; ".wav"]
     = ["spectrograms"; "clean"; ".wav.png"].
Proof.
  apply (output_name_replaces_wav_suffix ["spectrograms"; "clean"]
           ["input_wsj0c3"; "clean"] "take.2").
  discriminate.
Defined.

(** X2: two discovered names with something before the suffix are
    written to the same picture only if they are the same name, so within
    one method directory no picture of such a file overwrites another;
    the bare name [.wav] is the exception: it shares its picture with
    [.wav.wav]. *)
Theorem output_names_do_not_collide (od d d' : path) (x y : string) :
  x <> "" -> y <> "" ->
  output_file od (div d (x ++ ".wav")) = output_file od (div d' (y ++ ".wav")) ->
  x = y
  /\ output_file od (div d ".wav") = output_file od (div d ".wav.wav").
Proof.
  intros Hx Hy H. split.
  - rewrite !NameFacts.output_file_name in H.
    rewrite !NameFacts.stem_of_wav_name in H by assumption.
    unfold div in H. apply app_inj_tail in H. destruct H as [_ H].
    apply PathFacts.append_same_length_inj in H; [|reflexivity].
    now destruct H.
  - rewrite !NameFacts.output_file_name. reflexivity.
Qed.

Lemma output_names_do_not_collide_witness :
  "a" = "a"
  /\ output_file ["spectrograms"; "clean"] ["input_wsj0c3"; "clean"; ".wav"]
     = output_file ["spectrograms"; "clean"]
         ["input_wsj0c3"; "clean"; ".wav.wav"].
Proof.
  apply (output_names_do_not_collide ["spectrograms"; "clean"]
           ["input_wsj0c3"; "clean"] ["input_wsj0c3"; "noisy"] "a" "a").
  - discriminate.
  - discriminate.
  - reflexivity.
Defined.

(* ================================================================= *)
(** ** Further properties: one conversion *)

(** X3: when the body of the converter returns, all ten library calls
    were made in order on the decoded samples, their rate and the
    converted matrix; the save call wrote the whole picture, which is now
    at the output path and is the only change to the tree; and the one
    line printed is the success line with the output path. *)
Theorem success_means_picture_written (E : collaborators)
    (audio_path output_path : path) (figsize : Q * Q) (dpi : Q)
    (s s1 : state) :
  create_spectrogram_try E audio_path output_path figsize dpi s = (Ok tt, s1) ->
  exists y sr S S_dB tr png,
    librosa_load E (fs s) audio_path None = Ok (y, sr)
    /\ librosa_melspectrogram E y sr 128 8000 = Ok S
    /\ power_to_db S ref_np_max = Ok S_dB
    /\ plt_savefig E (fs s) tr
         (Savefig output_path "tight" 0 dpi "white" "none") = Saved png
    /\ calls_made s s1
       = script_calls audio_path output_path figsize dpi y sr S S_dB
    /\ fs s1 = update output_path (File png) (fs s)
    /\ stdout s1 = (stdout s ++ [generated_line output_path])%list
    /\ create_spectrogram E audio_path output_path figsize dpi s = (Ok tt, s1).
Proof.
  intros H.
  assert (Hc : create_spectrogram E audio_path output_path figsize dpi s
               = (Ok tt, s1)).
  { unfold create_spectrogram, try_except. now rewrite H. }
  revert H Hc. run_converter; intros H Hc; inversion H; subst; clear H.
  do 6 eexists. repeat split; try eassumption; try reflexivity.
  norm_calls. reflexivity.
Qed.

Lemma success_means_picture_written_witness :
  exists y sr S S_dB tr png,
    librosa_load Samples.working Samples.prepared Samples.a_wav None
    = Ok (y, sr)
    /\ librosa_melspectrogram Samples.working y sr 128 8000 = Ok S
    /\ power_to_db S ref_np_max = Ok S_dB
    /\ plt_savefig Samples.working Samples.prepared tr
         (Savefig Samples.a_png "tight" 0 default_dpi "white" "none")
       = Saved png
    /\ calls_made (Samples.start Samples.prepared)
         (snd (create_spectrogram_try Samples.working Samples.a_wav
                 Samples.a_png default_figsize default_dpi
                 (Samples.start Samples.prepared)))
       = script_calls Samples.a_wav Samples.a_png default_figsize default_dpi
           y sr S S_dB
    /\ fs (snd (create_spectrogram_try Samples.working Samples.a_wav
                  Samples.a_png default_figsize default_dpi
                  (Samples.start Samples.prepared)))
       = update Samples.a_png (File png) Samples.prepared
    /\ stdout (snd (create_spectrogram_try Samples.working Samples.a_wav
                      Samples.a_png default_figsize default_dpi
                      (Samples.start Samples.prepared)))
       = [generated_line Samples.a_png].
Proof.
  destruct (success_means_picture_written Samples.working Samples.a_wav
              Samples.a_png default_figsize default_dpi
              (Samples.start Samples.prepared)
              (snd (create_spectrogram_try Samples.working Samples.a_wav
                      Samples.a_png default_figsize default_dpi
                      (Samples.start Samples.prepared))))
    as (y & sr & S & S_dB & tr & png & H1 & H2 & H3 & H4 & H5 & H6 & H7 & _).
  - cbv -[Rmax ln Rmult Rminus Rdiv Rplus Rinv pow IZR]. reflexivity.
  - exists y, sr, S, S_dB, tr, png. repeat split; assumption.
Defined.

(** X4: [plt.close()] stands after the save inside the [try]: when the
    body fails at any call other than the close itself and the print
    that follows it, the close is never reached, so a figure that was
    opened stays open. *)
Theorem close_not_reached_on_failure (E : collaborators)
    (audio_path output_path : path) (figsize : Q * Q) (dpi : Q)
    (s s1 : state) (e : exn) :
  create_spectrogram_try E audio_path output_path figsize dpi s
  = (Raise e, s1) ->
  (forall tr, pyplot E tr Close = None) ->
  stdout_encode E (generated_line output_path) = None ->
  ~ In Close (calls_made s s1).
Proof.
  intros H Hclose Hprint. revert H.
  run_converter; intros H; inversion H; subst; clear H;
    norm_calls; cbn [In]; intros Hin;
    repeat (destruct Hin as [Hin|Hin]; [discriminate Hin|]);
    try (destruct Hin);
    match goal with
    | Hc : pyplot E _ Close = Some _ |- _ =>
        rewrite Hclose in Hc; discriminate Hc
    | Hc : Some _ = None |- _ => discriminate Hc
    end.
Qed.

Lemma close_not_reached_on_failure_witness :
  In (Figure default_figsize default_dpi)
     (calls_made (Samples.start Samples.prepared)
        (snd (create_spectrogram_try Samples.disk_full Samples.a_wav
                Samples.a_png default_figsize default_dpi
                (Samples.start Samples.prepared))))
  /\ ~ In Close
       (calls_made (Samples.start Samples.prepared)
          (snd (create_spectrogram_try Samples.disk_full Samples.a_wav
                  Samples.a_png default_figsize default_dpi
                  (Samples.start Samples.prepared)))).
Proof.
  split.
  - cbv -[Rmax ln Rmult Rminus Rdiv Rplus Rinv pow IZR].
    do 3 right. left. reflexivity.
  - apply (close_not_reached_on_failure Samples.disk_full Samples.a_wav
             Samples.a_png default_figsize default_dpi
             (Samples.start Samples.prepared) _
             "[Errno 28] No space left on device").
    + cbv -[Rmax ln Rmult Rminus Rdiv Rplus Rinv pow IZR]. reflexivity.
    + intros tr. reflexivity.
    + reflexivity.
Defined.

(* ================================================================= *)
(** ** Further properties: what the driver writes *)

Lemma mkdir_frame (p : path) (s s' : state) (r : result unit) :
  mkdir_exist_ok p s = (r, s') ->
  stdout s' = stdout s /\ trace s' = trace s
  /\ (fs s' = fs s
      \/ (r = Ok tt /\ lookup (fs s) p = None
          /\ fs s' = update p (Dir []) (fs s))).
Proof.
  unfold mkdir_exist_ok.
  destruct (lookup (fs s) p) as [[b|es]|] eqn:Hl.
  - intros H. injection H as <- <-. auto.
  - intros H. injection H as <- <-. auto.
  - destruct (lookup (fs s) (parent p)) as [[b|es]|];
      intros H; injection H as <- <-; simpl; auto.
    repeat split. right. repeat split.
Qed.

(** [mkdir] raises only for a regular file in the way, once the parent
    is a directory. *)
Lemma mkdir_raise (p : path) (s s' : state) (e : exn) :
  mkdir_exist_ok p s = (Raise e, s') ->
  is_dir (fs s) (parent p) = true ->
  s' = s /\ e = file_exists_error p /\ is_file (fs s) p = true.
Proof.
  unfold mkdir_exist_ok, is_dir, is_file, file_exists_error.
  destruct (lookup (fs s) p) as [[b|es]|].
  - intros H. injection H as <- <-. auto.
  - discriminate.
  - destruct (lookup (fs s) (parent p)) as [[b|es]|]; discriminate.
Qed.

Lemma mkdir_ok_is_dir_method (m : string) (s s' : state) :
  mkdir_exist_ok (div output_dir m) s = (Ok tt, s') ->
  is_dir (fs s') (div output_dir m) = true.
Proof.
  unfold mkdir_exist_ok.
  destruct (lookup (fs s) (div output_dir m)) as [[b|es]|] eqn:Hl.
  - discriminate.
  - intros H. injection H as <-. unfold is_dir. now rewrite Hl.
  - change (parent (div output_dir m)) with output_dir.
    destruct (lookup (fs s) output_dir) as [[b|es]|] eqn:Hp; try discriminate.
    intros H. injection H as <-.
    change (is_dir (update ["spectrograms"; m] (Dir []) (fs s))
              ["spectrograms"; m] = true).
    unfold is_dir at 1.
    rewrite TreeFacts.lookup_update_child; [reflexivity|].
    unfold is_dir, output_dir in *. now rewrite Hp.
Qed.

Lemma is_dir_method_write n m nm v m' :
  is_dir n (div output_dir m') = true ->
  is_dir (update (div (div output_dir m) nm) v n) (div output_dir m') = true.
Proof.
  rewrite !TreeFacts.is_dir_kind. intros H.
  rewrite TreeFacts.kind_update; [assumption|].
  intros r' Hr. discriminate Hr.
Qed.

Lemma is_dir_method_mkdir n m m' :
  is_dir n (div output_dir m') = true ->
  lookup n (div output_dir m) = None ->
  is_dir (update (div output_dir m) (Dir []) n) (div output_dir m') = true.
Proof.
  intros Hd Hnone. destruct (String.eqb m m') eqn:Hm.
  - apply String.eqb_eq in Hm. subst m'. unfold is_dir in Hd.
    rewrite Hnone in Hd. discriminate.
  - apply String.eqb_neq in Hm. rewrite TreeFacts.is_dir_kind in *.
    rewrite TreeFacts.kind_update; [assumption|].
    intros r' Hr. injection Hr as Hr _. congruence.
Qed.

Section Frame.

Variable E : collaborators.

(** Whatever the outcome of the outer loop, the tree changes only by
    the writes the driver is meant to make. *)
Lemma for_methods_frame (P : node -> Prop) (HP : output_closed P)
    (ms : list string) : forall t p s r s',
  for_methods E ms t p s = (r, s') -> P (fs s) -> P (fs s').
Proof.
  destruct HP as (Hwrite & Hmkdir & _).
  induction ms as [|m ms IH]; intros t p s r s' Hrun H0.
  - simpl in Hrun. unfold ret in Hrun. injection Hrun as <- <-. assumption.
  - cbn [for_methods] in Hrun. rewrite bind_path_exists in Hrun.
    destruct (exists_ (fs s) (div input_dir m)); cbn [negb] in Hrun.
    + unfold bind at 1 in Hrun.
      destruct (mkdir_exist_ok (div output_dir m) s) as [[[]|e] s2] eqn:Hmk.
      * apply mkdir_frame in Hmk. destruct Hmk as (_ & _ & Hfs2).
        assert (H2 : P (fs s2)).
        { destruct Hfs2 as [->|(_ & Hnone & ->)]; [assumption|].
          now apply Hmkdir. }
        rewrite bind_path_glob in Hrun.
        apply bind_print_cases in Hrun.
        destruct Hrun as [Hrun | (e & -> & -> & _)]; [|exact H2].
        unfold bind at 1 in Hrun.
        match type of Hrun with
        | context [for_wav_files E ?od ?fl ?pp ?ss] =>
            destruct (for_wav_files E od fl pp ss) as [[p1|e1] s5] eqn:Hf;
            pose proof (for_wav_files_frame E od fl pp ss _ _ Hf P) as Hfs5
        end; cbn [fs] in Hfs5.
        -- apply (IH _ _ _ _ _ Hrun).
           apply Hfs5; [|exact H2].
           intros n nm b Hn. now apply Hwrite.
        -- injection Hrun as <- <-.
           apply Hfs5; [|exact H2].
           intros n nm b Hn. now apply Hwrite.
      * apply mkdir_frame in Hmk. destruct Hmk as (_ & _ & Hfs2).
        injection Hrun as <- <-.
        destruct Hfs2 as [->|(Hr & _)]; [assumption | discriminate Hr].
    + apply bind_print_cases in Hrun.
      destruct Hrun as [Hrun | (e & -> & -> & _)]; [|exact H0].
      apply (IH _ _ _ _ _ Hrun). exact H0.
Qed.

(** The same for a whole run. *)
Lemma main_frame (P : node -> Prop) (HP : output_closed P) (s : state) :
  P (fs s) -> P (fs (snd (main E s))).
Proof.
  intros H0. unfold main. rewrite bind_path_exists.
  destruct (exists_ (fs s) input_dir); cbn [negb].
  - unfold bind at 1.
    destruct (mkdir_exist_ok output_dir s) as [[[]|e] s1] eqn:Hmk.
    + apply mkdir_frame in Hmk. destruct Hmk as (_ & _ & Hfs1).
      assert (H1 : P (fs s1)).
      { destruct Hfs1 as [->|(_ & Hnone & ->)]; [assumption|].
        destruct HP as (_ & _ & Hroot). now apply Hroot. }
      rewrite (bind_run _ _ _ _ _ (print_all_run E header s1 header_ascii)).
      unfold bind at 1.
      match goal with
      | |- context [for_methods E methods 0 0 ?ss] =>
          destruct (for_methods E methods 0 0 ss) as [[[t p]|e] s3] eqn:Hloop
      end.
      * rewrite print_all_run by apply footer_ascii. cbn [snd fs].
        apply (for_methods_frame P HP _ _ _ _ _ _ Hloop). exact H1.
      * cbn [snd].
        apply (for_methods_frame P HP _ _ _ _ _ _ Hloop). exact H1.
    + apply mkdir_frame in Hmk. destruct Hmk as (_ & _ & Hfs1).
      cbn [snd].
      destruct Hfs1 as [->|(Hr & _)]; [assumption | discriminate Hr].
  - unfold print. destruct (print_error E error_no_input); exact H0.
Qed.

End Frame.

Lemma output_closed_outside (x : string) (q : path) (o : option node) :
  x <> "spectrograms" ->
  output_closed (fun n => lookup n (x :: q) = o).
Proof.
  intros Hx. repeat split.
  - intros n m nm b H.
    change (div (div output_dir m) nm) with ("spectrograms" :: [m; nm]).
    rewrite TreeFacts.lookup_update_other; [assumption | congruence].
  - intros n m H _.
    change (div output_dir m) with ("spectrograms" :: [m]).
    rewrite TreeFacts.lookup_update_other; [assumption | congruence].
  - intros n H _.
    change output_dir with ("spectrograms" :: []).
    rewrite TreeFacts.lookup_update_other; [assumption | congruence].
Qed.

(** X5: whatever the libraries do and however the run ends, the driver
    changes nothing outside [spectrograms]: every path that does not
    start there leads to the same node after the run as before; the input
    files in particular are never modified, moved or deleted. *)
Theorem driver_writes_only_below_output_root (E : collaborators)
    (s : state) (x : string) (q : path) :
  x <> "spectrograms" ->
  lookup (fs (snd (main E s))) (x :: q) = lookup (fs s) (x :: q).
Proof.
  intros Hx.
  apply (main_frame E (fun n => lookup n (x :: q) = lookup (fs s) (x :: q))).
  - now apply output_closed_outside.
  - reflexivity.
Qed.

Lemma driver_writes_only_below_output_root_witness :
  lookup (fs (snd (main Samples.disk_full (Samples.start Samples.tree))))
    ["input_wsj0c3"; "clean"; "a.wav"]
  = Some (File "RIFF").
Proof.
  rewrite (driver_writes_only_below_output_root Samples.disk_full
             (Samples.start Samples.tree) "input_wsj0c3" ["clean"; "a.wav"]).
  - reflexivity.
  - discriminate.
Defined.

(* ================================================================= *)
(** ** Further properties: when a run aborts, and running again *)

Lemma output_closed_same_input (n0 : node) : output_closed (same_input n0).
Proof.
  repeat split.
  - intros n m nm b H.
    change (div (div output_dir m) nm) with ("spectrograms" :: [m; nm]).
    apply same_input_update; [discriminate | assumption].
  - intros n m H _.
    change (div output_dir m) with ("spectrograms" :: [m]).
    apply same_input_update; [discriminate | assumption].
  - intros n H _.
    change output_dir with ("spectrograms" :: []).
    apply same_input_update; [discriminate | assumption].
Qed.

Lemma output_closed_is_dir_root :
  output_closed (fun n => is_dir n output_dir = true).
Proof.
  repeat split.
  - intros n m nm b H. now apply is_dir_output_update.
  - intros n m H _. now apply is_dir_output_update.
  - intros n H Hnone. unfold is_dir in H. rewrite Hnone in H. discriminate.
Qed.

Lemma lookup_method_needs_root (n : node) (m : string) :
  lookup n output_dir = None -> lookup n (div output_dir m) = None.
Proof.
  unfold output_dir, div. simpl. destruct n as [b|es]; [reflexivity|].
  destruct (get "spectrograms" es); [discriminate | reflexivity].
Qed.

Lemma output_closed_is_dir_method (m : string) :
  output_closed (fun n => is_dir n (div output_dir m) = true).
Proof.
  repeat split.
  - intros n m' nm b H. now apply is_dir_method_write.
  - intros n m' H Hnone. now apply is_dir_method_mkdir.
  - intros n H Hnone. apply (lookup_method_needs_root n m) in Hnone.
    unfold is_dir in H. rewrite Hnone in H. discriminate.
Qed.

Lemma output_closed_is_file_method (m : string) :
  output_closed (fun n => is_file n (div output_dir m) = true).
Proof.
  assert (Hk : forall n, is_file n (div output_dir m) = true <->
                         kind_of (lookup n (div output_dir m)) = regular).
  { intros n. unfold is_file.
    destruct (lookup n (div output_dir m)) as [[b|es]|]; simpl;
      split; intros H; try discriminate; reflexivity. }
  repeat split.
  - intros n m' nm b H. rewrite Hk in *.
    rewrite TreeFacts.kind_update; [assumption|].
    intros r' Hr. discriminate Hr.
  - intros n m' H Hnone. rewrite Hk in *.
    rewrite TreeFacts.kind_update; [assumption|].
    intros r' Hr. injection Hr as Hr _. subst m'.
    rewrite Hnone in H. discriminate.
  - intros n H Hnone. apply (lookup_method_needs_root n m) in Hnone.
    unfold is_file in H. rewrite Hnone in H. discriminate.
Qed.

Lemma output_closed_method_free (m : string) :
  output_closed (fun n => is_dir n output_dir = true
                          /\ is_file n (div output_dir m) = false).
Proof.
  repeat split.
  - now apply is_dir_output_update.
  - now apply is_file_method_write.
  - now apply is_dir_output_update.
  - destruct H. now apply is_file_method_mkdir.
  - destruct H as [H _]. unfold is_dir in H. rewrite H0 in H. discriminate.
  - destruct H as [H _]. unfold is_dir in H. rewrite H0 in H. discriminate.
Qed.

Lemma mkdir_ok_is_dir_root (s s1 : state) :
  mkdir_exist_ok output_dir s = (Ok tt, s1) ->
  is_dir (fs s1) output_dir = true.
Proof.
  unfold mkdir_exist_ok.
  destruct (lookup (fs s) output_dir) as [[b|es]|] eqn:Hl.
  - discriminate.
  - intros H. injection H as <-. unfold is_dir. now rewrite Hl.
  - change (lookup (fs s) (parent output_dir)) with (Some (fs s)).
    destruct (fs s) as [b|es] eqn:Hes; [discriminate|].
    intros H. injection H as <-.
    change (is_dir (update ["spectrograms"] (Dir []) (Dir es))
              ["spectrograms"] = true).
    unfold is_dir. now rewrite TreeFacts.lookup_update_top.
Qed.

Section Abort.

Variable E : collaborators.

(** The loop over a list is the loop over its head, then over its tail. *)
Lemma for_methods_cons (m : string) (ms : list string) (t p : nat) (s : state) :
  for_methods E (m :: ms) t p s
  = match for_methods E [m] t p s with
    | (Ok (t', p'), s1) => for_methods E ms t' p' s1
    | (Raise e, s1) => (Raise e, s1)
    end.
Proof.
  cbn [for_methods]. cbv [bind ret path_exists path_glob].
  destruct (exists_ (fs s) (div input_dir m)); cbn [negb].
  - destruct (mkdir_exist_ok (div output_dir m) s) as [[[]|e] s2];
      [|reflexivity].
    destruct (print E _ s2) as [[[]|e] s4]; [|reflexivity].
    match goal with
    | |- context [for_wav_files E ?od ?fl ?pp ?ss] =>
        destruct (for_wav_files E od fl pp ss) as [[p'|e] s5]
    end; reflexivity.
  - destruct (print E _ s) as [[[]|e] s2]; reflexivity.
Qed.

(** One turn of the loop fails only in [mkdir], on a regular file, or
    in a print that the standard output cannot encode. *)
Lemma for_methods_one_raise (m : string) (t p : nat) (s s1 : state) (e : exn) :
  for_methods E [m] t p s = (Raise e, s1) ->
  is_dir (fs s) output_dir = true ->
  (exists_ (fs s) (div input_dir m) = true
   /\ e = file_exists_error (div output_dir m)
   /\ is_file (fs s) (div output_dir m) = true)
  \/ exists line, stdout_encode E line = Some e.
Proof.
  intros Hrun Hd. cbn [for_methods] in Hrun.
  rewrite bind_path_exists in Hrun.
  destruct (exists_ (fs s) (div input_dir m)); cbn [negb] in Hrun.
  - unfold bind at 1 in Hrun.
    destruct (mkdir_exist_ok (div output_dir m) s) as [[[]|e0] s2] eqn:Hmk.
    + rewrite bind_path_glob in Hrun.
      apply bind_print_cases in Hrun.
      destruct Hrun as [Hrun | (e' & He & _ & _ & Henc)].
      * unfold bind at 1 in Hrun.
        match type of Hrun with
        | context [for_wav_files E ?od ?fl ?pp ?ss] =>
            destruct (for_wav_files E od fl pp ss) as [[p1|e1] s5] eqn:Hf
        end.
        -- discriminate Hrun.
        -- injection Hrun as <- <-. right.
           exact (for_wav_files_raise E _ _ _ _ _ _ Hf).
      * injection He as <-. right. eauto.
    + injection Hrun as <- <-.
      apply mkdir_raise in Hmk; [|exact Hd].
      destruct Hmk as (_ & He & Hfile). left. auto.
  - apply bind_print_cases in Hrun.
    destruct Hrun as [Hrun | (e' & He & _ & _ & Henc)];
      [discriminate Hrun|].
    injection He as <-. right. eauto.
Qed.

Lemma for_methods_one_blocked (m : string) (t p : nat) (s : state) :
  exists_ (fs s) (div input_dir m) = true ->
  is_file (fs s) (div output_dir m) = true ->
  for_methods E [m] t p s = (Raise (file_exists_error (div output_dir m)), s).
Proof.
  intros Hin Hfile. cbn [for_methods].
  rewrite bind_path_exists, Hin. cbn [negb].
  unfold bind at 1, mkdir_exist_ok. unfold is_file in Hfile.
  destruct (lookup (fs s) (div output_dir m)) as [[b|es]|];
    try discriminate. reflexivity.
Qed.

Lemma for_methods_one_dir (m : string) (t p : nat) (s s1 : state) r :
  for_methods E [m] t p s = (Ok r, s1) ->
  exists_ (fs s) (div input_dir m) = true ->
  is_dir (fs s1) (div output_dir m) = true.
Proof.
  intros Hrun Hin. cbn [for_methods] in Hrun.
  rewrite bind_path_exists, Hin in Hrun. cbn [negb] in Hrun.
  apply bind_ok in Hrun. destruct Hrun as ([] & s2 & Hmk & Hrun).
  apply mkdir_ok_is_dir_method in Hmk.
  rewrite bind_path_glob in Hrun.
  apply bind_ok in Hrun. destruct Hrun as ([] & s4 & Hpr & Hrun).
  apply print_ok in Hpr. subst s4.
  apply bind_ok in Hrun. destruct Hrun as (p' & s5 & Hf & Hrun).
  unfold ret in Hrun. injection Hrun as _ <-.
  apply (for_wav_files_frame E _ _ _ _ _ _ Hf
           (fun n => is_dir n (div output_dir m) = true)); [|exact Hmk].
  intros n nm b Hn. now apply is_dir_method_write.
Qed.

(** The loop fails only on a regular file in the way of the output
    directory of a present method, or in a print that the standard output
    cannot encode. *)
Lemma for_methods_raise (n0 : node) (ms : list string) :
  forall t p s e s',
    same_input n0 (fs s) ->
    is_dir (fs s) output_dir = true ->
    for_methods E ms t p s = (Raise e, s') ->
    (exists m,
        In m ms /\ exists_ n0 (div input_dir m) = true
        /\ e = file_exists_error (div output_dir m)
        /\ is_file (fs s) (div output_dir m) = true)
    \/ exists line, stdout_encode E line = Some e.
Proof.
  induction ms as [|m ms IH]; intros t p s e s' Hin Hd Hrun.
  - simpl in Hrun. discriminate Hrun.
  - rewrite for_methods_cons in Hrun.
    destruct (for_methods E [m] t p s) as [[[t1 p1]|e1] s1] eqn:Hone.
    + assert (Hin1 : same_input n0 (fs s1))
        by (apply (for_methods_frame E _ (output_closed_same_input n0)
                     _ _ _ _ _ _ Hone Hin)).
      assert (Hd1 : is_dir (fs s1) output_dir = true)
        by (apply (for_methods_frame E _ output_closed_is_dir_root
                     _ _ _ _ _ _ Hone Hd)).
      destruct (IH _ _ _ _ _ Hin1 Hd1 Hrun)
        as [(m' & Hm' & Hp' & He & Hf)|Henc]; [left|right; exact Henc].
      exists m'. split; [right; exact Hm'|].
      split; [exact Hp'|]. split; [exact He|].
      destruct (is_file (fs s) (div output_dir m')) eqn:Hf0; [reflexivity|].
      assert (H1 : is_dir (fs s1) output_dir = true
                   /\ is_file (fs s1) (div output_dir m') = false)
        by (apply (for_methods_frame E _ (output_closed_method_free m')
                     _ _ _ _ _ _ Hone); auto).
      destruct H1 as [_ H1]. congruence.
    + injection Hrun as <- <-.
      destruct (for_methods_one_raise _ _ _ _ _ _ Hone Hd)
        as [(Hp & He & Hf)|Henc]; [left|right; exact Henc].
      exists m. split; [left; reflexivity|].
      split; [|split; [exact He | exact Hf]].
      change (div input_dir m) with ["input_wsj0c3"; m] in *.
      now rewrite <- (same_input_exists n0 (fs s) [m] Hin).
Qed.

(** A regular file in the way of a present method makes the loop fail. *)
Lemma for_methods_blocked (n0 : node) (ms : list string) :
  forall t p s m,
    same_input n0 (fs s) ->
    In m ms -> exists_ n0 (div input_dir m) = true ->
    is_file (fs s) (div output_dir m) = true ->
    exists e s', for_methods E ms t p s = (Raise e, s').
Proof.
  induction ms as [|h ms IH]; intros t p s m Hin Hm Hp Hf.
  - destruct Hm.
  - rewrite for_methods_cons.
    destruct (for_methods E [h] t p s) as [[[t1 p1]|e1] s1] eqn:Hone.
    + destruct Hm as [->|Hm].
      * rewrite for_methods_one_blocked in Hone; [discriminate Hone| |exact Hf].
        change (div input_dir m) with ["input_wsj0c3"; m] in *.
        now rewrite (same_input_exists n0 (fs s) [m] Hin).
      * apply (IH _ _ _ m); auto.
        -- apply (for_methods_frame E _ (output_closed_same_input n0)
                    _ _ _ _ _ _ Hone Hin).
        -- apply (for_methods_frame E _ (output_closed_is_file_method m)
                    _ _ _ _ _ _ Hone Hf).
    + eauto.
Qed.

(** After a loop that returns, every present method has its output
    directory. *)
Lemma for_methods_dirs (n0 : node) (ms : list string) :
  forall t p s r s' m,
    same_input n0 (fs s) ->
    for_methods E ms t p s = (Ok r, s') ->
    In m ms -> exists_ n0 (div input_dir m) = true ->
    is_dir (fs s') (div output_dir m) = true.
Proof.
  induction ms as [|h ms IH]; intros t p s r s' m Hin Hrun Hm Hp.
  - destruct Hm.
  - rewrite for_methods_cons in Hrun.
    destruct (for_methods E [h] t p s) as [[[t1 p1]|e1] s1] eqn:Hone;
      [|discriminate Hrun].
    assert (Hin1 : same_input n0 (fs s1))
      by (apply (for_methods_frame E _ (output_closed_same_input n0)
                   _ _ _ _ _ _ Hone Hin)).
    destruct (in_dec string_dec m ms) as [Hrest|Hrest].
    + apply (IH _ _ _ _ _ m Hin1 Hrun Hrest Hp).
    + destruct Hm as [->|Hm]; [|contradiction].
      apply (for_methods_frame E _ (output_closed_is_dir_method m)
               _ _ _ _ _ _ Hrun).
      apply (for_methods_one_dir _ _ _ _ _ _ Hone).
      change (div input_dir m) with ["input_wsj0c3"; m] in *.
      now rewrite (same_input_exists n0 (fs s) [m] Hin).
Qed.

End Abort.

Lemma discovered_same_input (n n' : node) :
  same_input n n' -> discovered n' = discovered n.
Proof.
  intros H. unfold discovered. apply flat_map_ext. intros m.
  unfold discovered_in. change (div input_dir m) with ["input_wsj0c3"; m].
  now apply same_input_glob.
Qed.

Lemma input_root_is_in_a_directory (n : node) :
  exists_ n input_dir = true -> is_dir n [] = true.
Proof.
  unfold exists_, is_dir, input_dir. destruct n as [b|es]; simpl.
  - discriminate.
  - reflexivity.
Qed.

Section Runs.

Variable E : collaborators.

(** A run that raises: the error is the [FileExistsError] of the output
    root or of the output directory of a present method, or the error of
    a print that the standard output cannot encode. *)
Lemma main_raise (s s' : state) (e : exn) :
  main E s = (Raise e, s') ->
  exists_ (fs s) input_dir = true
  /\ ((exists p,
         (p = output_dir
          \/ exists m, In m methods
                       /\ exists_ (fs s) (div input_dir m) = true
                       /\ p = div output_dir m)
         /\ e = file_exists_error p
         /\ is_file (fs s) p = true)
      \/ exists line, stdout_encode E line = Some e).
Proof.
  intros Hrun. unfold main in Hrun. rewrite bind_path_exists in Hrun.
  destruct (exists_ (fs s) input_dir) eqn:Hin; cbn [negb] in Hrun.
  2:{ rewrite (print_ascii E _ s error_no_input_ascii) in Hrun.
      discriminate Hrun. }
  split; [reflexivity|].
  unfold bind at 1 in Hrun.
  destruct (mkdir_exist_ok output_dir s) as [[[]|e0] s1] eqn:Hmk.
  - assert (Hd1 := mkdir_ok_is_dir_root _ _ Hmk).
    apply mkdir_frame in Hmk. destruct Hmk as (_ & _ & Hfs1).
    assert (Hin1 : same_input (fs s) (fs s1)).
    { destruct Hfs1 as [->|(_ & _ & ->)]; [intros q; reflexivity|].
      apply same_input_update; [discriminate | intros q; reflexivity]. }
    rewrite (bind_run _ _ _ _ _ (print_all_run E header s1 header_ascii))
      in Hrun.
    unfold bind at 1 in Hrun.
    match type of Hrun with
    | context [for_methods E methods 0 0 ?ss] =>
        destruct (for_methods E methods 0 0 ss) as [[[t p]|e1] s3] eqn:Hloop
    end.
    + rewrite print_all_run in Hrun by apply footer_ascii.
      discriminate Hrun.
    + injection Hrun as <- <-.
      apply (for_methods_raise E (fs s)) in Hloop; [|exact Hin1|exact Hd1].
      destruct Hloop as [(m & Hm & Hp & He & Hf)|Henc];
        [left|right; exact Henc].
      cbn [fs] in Hf.
      exists (div output_dir m). split; [right; exists m; auto|].
      split; [exact He|].
      destruct Hfs1 as [H1|(_ & Hnone & H1)]; rewrite H1 in Hf; [exact Hf|].
      exfalso. unfold is_file in Hf.
      destruct (fs s) as [b|es]; [discriminate Hin|].
      unfold output_dir, div in Hf. simpl in Hf.
      rewrite TreeFacts.get_set_eq in Hf. simpl in Hf. discriminate Hf.
  - injection Hrun as <- <-. left.
    apply mkdir_raise in Hmk.
    + destruct Hmk as (_ & He & Hf). exists output_dir. auto.
    + now apply input_root_is_in_a_directory.
Qed.

(** A regular file in the way makes the run raise. *)
Lemma main_blocked (s : state) :
  exists_ (fs s) input_dir = true -> blocked (fs s) = true ->
  exists e s', main E s = (Raise e, s').
Proof.
  intros Hin Hb. unfold main. rewrite bind_path_exists, Hin. cbn [negb].
  unfold bind at 1.
  destruct (mkdir_exist_ok output_dir s) as [[[]|e0] s1] eqn:Hmk; [|eauto].
  unfold blocked in Hb. apply orb_prop in Hb. destruct Hb as [Hb|Hb].
  - unfold mkdir_exist_ok in Hmk. unfold is_file in Hb.
    destruct (lookup (fs s) output_dir) as [[b|es]|]; discriminate.
  - apply existsb_exists in Hb. destruct Hb as (m & Hm & Hb).
    apply andb_prop in Hb. destruct Hb as [Hp Hf].
    apply mkdir_frame in Hmk. destruct Hmk as (_ & _ & Hfs1).
    assert (H1 : fs s1 = fs s).
    { destruct Hfs1 as [H1|(_ & Hnone & _)]; [exact H1|].
      apply (lookup_method_needs_root _ m) in Hnone.
      unfold is_file in Hf. rewrite Hnone in Hf. discriminate Hf. }
    rewrite (bind_run _ _ _ _ _ (print_all_run E header s1 header_ascii)).
    unfold bind at 1.
    match goal with
    | |- context [for_methods E methods 0 0 ?ss] =>
        destruct (for_methods_blocked E (fs s) methods 0 0 ss m)
          as (e & s3 & Hloop)
    end.
    + cbn [fs]. rewrite H1. intros q. reflexivity.
    + exact Hm.
    + exact Hp.
    + cbn [fs]. rewrite H1. exact Hf.
    + rewrite Hloop. eauto.
Qed.

(** After a run that returns, the output root and the output directory
    of every present method exist. *)
Lemma main_dirs (s s' : state) :
  exists_ (fs s) input_dir = true ->
  main E s = (Ok tt, s') ->
  is_dir (fs s') output_dir = true
  /\ forall m, In m methods -> exists_ (fs s) (div input_dir m) = true ->
               is_dir (fs s') (div output_dir m) = true.
Proof.
  intros Hin Hrun. unfold main in Hrun.
  rewrite bind_path_exists, Hin in Hrun. cbn [negb] in Hrun.
  apply bind_ok in Hrun. destruct Hrun as ([] & s1 & Hmk & Hrun).
  assert (Hd1 := mkdir_ok_is_dir_root _ _ Hmk).
  apply mkdir_frame in Hmk. destruct Hmk as (_ & _ & Hfs1).
  assert (Hin1 : same_input (fs s) (fs s1)).
  { destruct Hfs1 as [->|(_ & _ & ->)]; [intros q; reflexivity|].
    apply same_input_update; [discriminate | intros q; reflexivity]. }
  apply bind_ok in Hrun. destruct Hrun as ([] & s2 & Hhead & Hrun).
  apply print_all_ok in Hhead. subst s2.
  apply bind_ok in Hrun. destruct Hrun as ([t p] & s3 & Hloop & Hrun).
  apply print_all_ok in Hrun. subst s'. cbn [fs].
  split.
  - apply (for_methods_frame E _ output_closed_is_dir_root
             _ _ _ _ _ _ Hloop). exact Hd1.
  - intros m Hm Hp.
    eapply (for_methods_dirs E (fs s)); [|exact Hloop|exact Hm|exact Hp].
    exact Hin1.
Qed.

End Runs.

(** X6: in a working directory where directories can be made
    (permissions are not part of the tree), a regular file in the way of
    the output root, or of the output directory of a present method, makes
    every run with an existing input root raise.  A run raises only when
    the input root exists, and its error is the [FileExistsError] of such a
    path found at the start, or the error of a print that the standard
    output could not encode.  On a standard output that encodes every text
    a run raises exactly when the input root exists and such a file is in
    the way, and the error is that [FileExistsError]: no failure of a
    conversion and no missing directory ends the run. *)
Theorem run_aborts_iff_blocked (E : collaborators) (s : state) :
  (exists_ (fs s) input_dir = true /\ blocked (fs s) = true ->
   exists e s', main E s = (Raise e, s'))
  /\ (forall e s',
        main E s = (Raise e, s') ->
        exists_ (fs s) input_dir = true
        /\ ((blocked (fs s) = true
             /\ exists p, In p output_paths /\ e = file_exists_error p
                          /\ is_file (fs s) p = true)
            \/ exists line, stdout_encode E line = Some e))
  /\ (encodes_all E ->
      ((exists e s', main E s = (Raise e, s')) <->
       exists_ (fs s) input_dir = true /\ blocked (fs s) = true)
      /\ forall e s',
           main E s = (Raise e, s') ->
           exists p, In p output_paths /\ e = file_exists_error p
                     /\ is_file (fs s) p = true).
Proof.
  assert (Hraise : forall e s',
             main E s = (Raise e, s') ->
             exists_ (fs s) input_dir = true
             /\ ((blocked (fs s) = true
                  /\ exists p, In p output_paths /\ e = file_exists_error p
                               /\ is_file (fs s) p = true)
                 \/ exists line, stdout_encode E line = Some e)).
  { intros e s' Hrun.
    destruct (main_raise E s s' e Hrun) as (Hin & [(p & Hp & He & Hf)|Henc]).
    2:{ split; [exact Hin | right; exact Henc]. }
    split; [exact Hin|]. left. unfold blocked, output_paths.
    destruct Hp as [->|(m & Hm & Hpres & ->)].
    - split; [now rewrite Hf|]. exists output_dir. simpl. auto.
    - split.
      + apply orb_true_iff. right. apply existsb_exists. exists m.
        split; [exact Hm|]. now rewrite Hpres, Hf.
      + exists (div output_dir m). split; [|auto].
        right. apply in_map. exact Hm. }
  split; [|split; [exact Hraise|]].
  - intros [Hin Hb]. now apply main_blocked.
  - intros Henc.
    assert (Hfile : forall e s',
               main E s = (Raise e, s') ->
               exists_ (fs s) input_dir = true /\ blocked (fs s) = true
               /\ exists p, In p output_paths /\ e = file_exists_error p
                            /\ is_file (fs s) p = true).
    { intros e s' Hrun.
      destruct (Hraise e s' Hrun) as (Hin & [[Hb Hp]|[line Hline]]).
      - auto.
      - rewrite Henc in Hline. discriminate Hline. }
    split; [split|].
    + intros (e & s' & Hrun).
      destruct (Hfile e s' Hrun) as (H1 & H2 & _). auto.
    + intros [Hin Hb]. now apply main_blocked.
    + intros e s' Hrun. destruct (Hfile e s' Hrun) as (_ & _ & H). exact H.
Qed.

Lemma run_aborts_iff_blocked_witness :
  (exists e s', main Samples.working (Samples.start Samples.blocked_tree)
                = (Raise e, s'))
  /\ (exists p,
        In p output_paths
        /\ fst (main Samples.working (Samples.start Samples.blocked_tree))
           = Raise (file_exists_error p)
        /\ is_file Samples.blocked_tree p = true)
  /\ fst (main Samples.working (Samples.start Samples.blocked_tree))
     = Raise "[Errno 17] File exists: 'spectrograms/noisy'".
Proof.
  destruct (run_aborts_iff_blocked Samples.working
              (Samples.start Samples.blocked_tree)) as (Hb & _ & Henc).
  destruct Henc as [_ Hfile]; [intros line; reflexivity|].
  split; [|split].
  - apply Hb. split; reflexivity.
  - destruct (Hfile (file_exists_error ["spectrograms"; "noisy"])
                (snd (main Samples.working
                        (Samples.start Samples.blocked_tree))))
      as (p & Hp & He & Hf).
    + vm_compute. reflexivity.
    + exists p. split; [exact Hp|]. split; [|exact Hf].
      rewrite <- He. vm_compute. reflexivity.
  - vm_compute. reflexivity.
Defined.

(** X7: once a run has reached its footer, running again on the tree
    it left, with any libraries, is not stopped by the directories it
    finds in place, which are reused: the second run can only raise in a
    print that its standard output cannot encode; on a standard output
    that encodes every text it reaches the footer too, converts the same
    files in the same order and prints the same totals. *)
Theorem second_run_repeats_the_first (E1 E2 : collaborators)
    (s s1 : state) :
  exists_ (fs s) input_dir = true ->
  main E1 s = (Ok tt, s1) ->
  (forall e s2,
      main E2 s1 = (Raise e, s2) ->
      exists line, stdout_encode E2 line = Some e)
  /\ (encodes_all E2 ->
      exists s2,
        main E2 s1 = (Ok tt, s2)
        /\ load_paths (trace s2)
           = (load_paths (trace s1) ++ discovered (fs s))%list
        /\ In (total_line (length (discovered (fs s)))
                 (length (discovered (fs s)))) (stdout s2)).
Proof.
  intros Hin Hrun.
  destruct (main_post E1 s s1 Hin Hrun) as (_ & _ & _ & _ & Hsame).
  destruct (main_dirs E1 s s1 Hin Hrun) as [Hroot Hdirs].
  assert (Hin1 : exists_ (fs s1) input_dir = true).
  { unfold input_dir in *.
    now rewrite (same_input_exists (fs s) (fs s1) [] Hsame). }
  assert (Hraise : forall e s2,
             main E2 s1 = (Raise e, s2) ->
             exists line, stdout_encode E2 line = Some e).
  { intros e s2 Hrun2.
    destruct (main_raise E2 s1 s2 e Hrun2)
      as (_ & [(p & Hp & _ & Hf)|Hline]); [exfalso | exact Hline].
    destruct Hp as [->|(m & Hm & Hpres & ->)].
    - unfold is_dir in Hroot. unfold is_file in Hf.
      destruct (lookup (fs s1) output_dir) as [[b|es]|]; discriminate.
    - change (div input_dir m) with ["input_wsj0c3"; m] in Hpres.
      rewrite (same_input_exists (fs s) (fs s1) [m] Hsame) in Hpres.
      specialize (Hdirs m Hm Hpres).
      unfold is_dir in Hdirs. unfold is_file in Hf.
      destruct (lookup (fs s1) (div output_dir m)) as [[b|es]|];
        discriminate. }
  split; [exact Hraise|]. intros Henc.
  destruct (main E2 s1) as [[[]|e] s2] eqn:Hrun2.
  - exists s2. split; [reflexivity|].
    destruct (main_post E2 s1 s2 Hin1 Hrun2) as (blocks & Hout & _ & Htr & _).
    rewrite (discovered_same_input _ _ Hsame) in Hout, Htr.
    split; [exact Htr|].
    rewrite Hout. apply in_or_app. right. apply in_or_app. right.
    apply in_or_app. right. simpl. auto.
  - exfalso. destruct (Hraise e s2 eq_refl) as [line Hline].
    rewrite Henc in Hline. discriminate Hline.
Qed.

Lemma second_run_repeats_the_first_witness :
  exists s2,
    main Samples.broken Samples.after_first_run = (Ok tt, s2)
    /\ load_paths (trace s2)
       = (load_paths (trace Samples.after_first_run)
          ++ discovered Samples.tree)%list
    /\ In (total_line (length (discovered Samples.tree))
             (length (discovered Samples.tree))) (stdout s2).
Proof.
  apply (second_run_repeats_the_first Samples.working Samples.broken
           (Samples.start Samples.tree) Samples.after_first_run).
  - reflexivity.
  - vm_compute. reflexivity.
  - intros line. reflexivity.
Defined.

(** X8: a run that reaches its footer leaves the output root and, for
    every listed method whose input directory is present, its output
    directory in place, also when that method has no [.wav] entry at all
    and when every conversion failed. *)
Theorem present_methods_get_output_directories (E : collaborators)
    (s s' : state) (m : string) :
  exists_ (fs s) input_dir = true ->
  main E s = (Ok tt, s') ->
  In m methods ->
  exists_ (fs s) (div input_dir m) = true ->
  is_dir (fs s') output_dir = true
  /\ is_dir (fs s') (div output_dir m) = true.
Proof.
  intros Hin Hrun Hm Hp.
  destruct (main_dirs E s s' Hin Hrun) as [Hroot Hdirs]. auto.
Qed.

Lemma present_methods_get_output_directories_witness :
  is_dir (fs (snd (main Samples.broken (Samples.start Samples.tree))))
    output_dir = true
  /\ is_dir (fs (snd (main Samples.broken (Samples.start Samples.tree))))
       (div output_dir "noisy") = true.
Proof.
  apply (present_methods_get_output_directories Samples.broken
           (Samples.start Samples.tree)).
  - reflexivity.
  - vm_compute. reflexivity.
  - simpl. auto.
  - reflexivity.
Defined.

(* ================================================================= *)
(** ** Further properties: the printed text *)

Module OutputFacts.

Lemma marks_app (l l' : list string) : marks (l ++ l') = marks l + marks l'.
Proof. unfold marks. rewrite !filter_app, !length_app. lia. Qed.

Lemma prefix_empty (t : string) : prefix "" t = true.
Proof. destruct t; reflexivity. Qed.

Lemma marks_generated (o : path) :
  is_generated_line (generated_line o) = true
  /\ is_error_line (generated_line o) = false.
Proof.
  unfold is_generated_line, is_error_line, generated_line. simpl.
  split; [apply prefix_empty | reflexivity].
Qed.

Lemma marks_error (a : path) (e : exn) :
  is_generated_line (error_line a e) = false
  /\ is_error_line (error_line a e) = true.
Proof.
  unfold is_generated_line, is_error_line, error_line. simpl.
  split; [reflexivity | apply prefix_empty].
Qed.

Lemma marks_file_lines (od : path) (files : list path) (lines : list string) :
  Forall2 (fun f l => file_line f (output_file od f) l) files lines ->
  marks lines = length files.
Proof.
  induction 1 as [|f l files lines Hl _ IH]; [reflexivity|].
  change (l :: lines) with ([l] ++ lines)%list. rewrite marks_app, IH.
  simpl length. f_equal. unfold marks. simpl.
  destruct Hl as [->|[e ->]].
  - destruct (marks_generated (output_file od f)) as [-> ->]. reflexivity.
  - destruct (marks_error f e) as [-> ->]. reflexivity.
Qed.

Lemma block_shape (n : node) (m : string) (block : list string) :
  method_block n m block ->
  length block = 1 + length (discovered_in n m)
  /\ marks block = length (discovered_in n m).
Proof.
  unfold method_block.
  destruct (exists_ n (div input_dir m)) eqn:Hp.
  - intros (lines & -> & Hlines). split.
    + simpl. f_equal. symmetry. eapply Forall2_length. exact Hlines.
    + change (processing_line m (length (discovered_in n m)) :: lines)
        with ([processing_line m (length (discovered_in n m))] ++ lines)%list.
      rewrite marks_app, (marks_file_lines _ _ _ Hlines). reflexivity.
  - intros ->. rewrite (absent_method_discovers_nothing n m Hp).
    split; reflexivity.
Qed.

Lemma blocks_shape (n : node) (ms : list string) (blocks : list (list string)) :
  Forall2 (method_block n) ms blocks ->
  length (concat blocks)
  = length ms + length (flat_map (discovered_in n) ms)
  /\ marks (concat blocks) = length (flat_map (discovered_in n) ms).
Proof.
  induction 1 as [|m block ms blocks Hb _ IH]; [split; reflexivity|].
  destruct IH as [IH1 IH2]. destruct (block_shape n m block Hb) as [H1 H2].
  simpl. rewrite !length_app, marks_app. split; lia.
Qed.

End OutputFacts.



(** X10: among the lines a run adds, those that start with the success
    mark and those that start with the failure mark are together as many
    as the discovered files: each file has its one marked line, and no
    line of the header, of the footer or about a method carries a mark;
    so the printed text, unlike the footer ratio, tells successes from
    failures. *)
Theorem marked_lines_count_the_files (E : collaborators) (s s' : state) :
  exists_ (fs s) input_dir = true ->
  main E s = (Ok tt, s') ->
  length (filter is_generated_line (stdout s'))
  + length (filter is_error_line (stdout s'))
  = length (filter is_generated_line (stdout s))
    + length (filter is_error_line (stdout s))
    + length (discovered (fs s)).
Proof.
  intros Hin Hrun.
  destruct (main_post E s s' Hin Hrun) as (blocks & Hout & Hblocks & _).
  destruct (OutputFacts.blocks_shape _ _ _ Hblocks) as [_ Hmarks].
  fold (marks (stdout s')). fold (marks (stdout s)).
  rewrite Hout, !OutputFacts.marks_app, Hmarks.
  fold (discovered (fs s)).
  assert (Hh : marks header = 0) by reflexivity.
  assert (Hf : forall p t, marks (footer p t) = 0)
    by (intros p t; reflexivity).
  rewrite Hh, Hf. lia.
Qed.

Lemma marked_lines_count_the_files_witness :
  length (filter is_generated_line
            (stdout (snd (main Samples.working (Samples.start Samples.tree)))))
  + length (filter is_error_line
              (stdout (snd (main Samples.working
                              (Samples.start Samples.tree)))))
  = length (filter is_generated_line [])
    + length (filter is_error_line [])
    + length (discovered Samples.tree).
Proof.
  apply (marked_lines_count_the_files Samples.working
           (Samples.start Samples.tree)).
  - reflexivity.
  - vm_compute. reflexivity.
Defined.

(* ================================================================= *)
(** ** Further properties: no file twice *)

Module DiscoveryFacts.

Lemma nodupb_NoDup (names : list string) :
  nodupb names = true -> NoDup names.
Proof.
  induction names as [|x names IH]; simpl; intros H.
  - constructor.
  - apply andb_prop in H. destruct H as [Hx Hrest].
    constructor; [|now apply IH].
    intros Hin. apply negb_true_iff in Hx.
    assert (Ht : existsb (String.eqb x) names = true).
    { apply existsb_exists. exists x. split; [exact Hin|].
      apply String.eqb_refl. }
    congruence.
Qed.

Lemma NoDup_map_filter {A B} (g : A -> B) (f : A -> bool) (l : list A) :
  NoDup (map g l) -> NoDup (map g (filter f l)).
Proof.
  induction l as [|a l IH]; simpl; intros H; [constructor|].
  inversion H as [|? ? Hnotin Hrest]; subst.
  destruct (f a); simpl; [|now apply IH].
  constructor; [|now apply IH].
  intros Hin. apply Hnotin. apply in_map_iff in Hin.
  destruct Hin as (a' & Heq & Hin). apply filter_In in Hin.
  apply in_map_iff. exists a'. tauto.
Qed.

Lemma NoDup_map_div (d : path) (names : list string) :
  NoDup names -> NoDup (map (div d) names).
Proof.
  induction 1 as [|x names Hnotin _ IH]; simpl; constructor; [|exact IH].
  intros Hin. apply in_map_iff in Hin. destruct Hin as (y & Heq & Hin).
  unfold div in Heq. apply app_inv_head in Heq. injection Heq as ->.
  contradiction.
Qed.

(** One directory with distinct names is listed without repetition. *)
Lemma glob_NoDup (n : node) (d : path) (pat : string) :
  (forall es, lookup n d = Some (Dir es) -> NoDup (map fst es)) ->
  NoDup (glob n d pat).
Proof.
  intros H. unfold glob.
  destruct (lookup n d) as [[b|es]|]; try constructor.
  rewrite <- (map_map fst (div d)).
  apply NoDup_map_div. apply NoDup_map_filter. now apply H.
Qed.

Lemma distinct_names_spec (n : node) (m : string) (es : list (string * node)) :
  distinct_names n = true -> In m methods ->
  lookup n (div input_dir m) = Some (Dir es) -> NoDup (map fst es).
Proof.
  unfold distinct_names. intros H Hm Hl.
  rewrite forallb_forall in H. specialize (H m Hm).
  rewrite Hl in H. now apply nodupb_NoDup.
Qed.

Lemma discovered_NoDup_over (n : node) (ms : list string) :
  (forall m, In m ms -> In m methods) -> distinct_names n = true ->
  NoDup ms -> NoDup (flat_map (discovered_in n) ms).
Proof.
  intros Hsub Hd. induction 1 as [|m ms Hnotin _ IH]; simpl; [constructor|].
  apply NoDup_app.
  - apply glob_NoDup. intros es Hl.
    apply (distinct_names_spec n m es Hd); [|exact Hl].
    apply Hsub. now left.
  - apply IH. intros m' Hm'. apply Hsub. now right.
  - intros p Hp Hp'. apply in_flat_map in Hp'.
    destruct Hp' as (m' & Hm' & Hp').
    unfold discovered_in in Hp, Hp'.
    apply glob_wav_spec in Hp. apply glob_wav_spec in Hp'.
    destruct Hp as (_ & nm & _ & _ & _ & _ & _ & ->).
    destruct Hp' as (_ & nm' & _ & _ & _ & _ & _ & Heq).
    injection Heq as -> _. contradiction.
Qed.

End DiscoveryFacts.

(** X11: in a tree whose listed method directories have distinct entry
    names, as every real directory has, no path is discovered twice, so a
    run that reaches its footer converts every discovered file exactly
    once. *)
Theorem no_file_converted_twice (E : collaborators) (s s' : state) :
  exists_ (fs s) input_dir = true ->
  distinct_names (fs s) = true ->
  main E s = (Ok tt, s') ->
  NoDup (discovered (fs s))
  /\ load_paths (trace s') = (load_paths (trace s) ++ discovered (fs s))%list.
Proof.
  intros Hin Hd Hrun. split.
  - apply DiscoveryFacts.discovered_NoDup_over; [auto | exact Hd |].
    apply DiscoveryFacts.nodupb_NoDup. reflexivity.
  - destruct (main_post E s s' Hin Hrun) as (_ & _ & _ & Htr & _). exact Htr.
Qed.

Lemma no_file_converted_twice_witness :
  NoDup (discovered Samples.tree)
  /\ load_paths (trace (snd (main Samples.working
                               (Samples.start Samples.tree))))
     = ([] ++ discovered Samples.tree)%list.
Proof.
  apply (no_file_converted_twice Samples.working (Samples.start Samples.tree)).
  - reflexivity.
  - reflexivity.
  - vm_compute. reflexivity.
Defined.

(* ================================================================= *)
(** ** Further properties: the range of the decibel matrix *)

Module DecibelRange.
Import DecibelFacts.
Local Open Scope R_scope.

Lemma fold_max_upper : forall xs x y,
  In y (x :: xs) -> y <= fold_left Rmax xs x.
Proof.
  induction xs as [|a xs IH]; intros x y Hy; simpl.
  - destruct Hy as [->|[]]. lra.
  - destruct Hy as [->|[->|Hy]].
    + eapply Rle_trans; [apply Rmax_l | apply fold_max_ge].
    + eapply Rle_trans; [apply Rmax_r | apply fold_max_ge].
    + apply IH. now right.
Qed.

Lemma np_max_upper (S : matrix) (r x : R) :
  np_max S = Ok r -> In x (concat S) -> x <= r.
Proof.
  unfold np_max. destruct (concat S) as [|x0 xs]; [discriminate|].
  intros H Hx. injection H as <-. now apply fold_max_upper.
Qed.

Lemma Forall_mmap (P : R -> Prop) (f : R -> R) (S : matrix) :
  (forall x, In x (concat S) -> P (f x)) ->
  Forall (Forall P) (mmap f S).
Proof.
  intros H. unfold mmap. apply Forall_map. apply Forall_forall.
  intros row Hrow. apply Forall_map. apply Forall_forall.
  intros x Hx. apply H. apply in_concat. exists row. split; assumption.
Qed.

Lemma power_to_db_range (S D : matrix) :
  power_to_db S ref_np_max = Ok D -> in_db_range D.
Proof.
  intros H. destruct (np_max S) as [r|e] eqn:Hr.
  - rewrite (power_to_db_unfold S r Hr) in H. injection H as <-.
    rewrite mmap_mmap. unfold in_db_range. apply Forall_mmap.
    intros x Hx. unfold clip, top_db. split.
    + eapply Rle_trans; [|apply Rmax_r]. lra.
    + apply Rmax_lub; [|lra].
      replace 0 with (db_rel r r) by (unfold db_rel; lra).
      apply db_rel_monotone. eapply np_max_upper; eassumption.
  - unfold power_to_db in H. rewrite Hr in H. discriminate.
Qed.

Lemma silent_concat (S : matrix) :
  silent S -> Forall (fun x => x = 0) (concat S).
Proof.
  induction 1 as [|row S Hrow _ IH]; simpl.
  - constructor.
  - apply Forall_app. split; assumption.
Qed.

Lemma fold_max_zeros : forall xs,
  Forall (fun x => x = 0) xs -> fold_left Rmax xs 0 = 0.
Proof.
  induction xs as [|a xs IH]; intros H; simpl; [reflexivity|].
  inversion H; subst. rewrite Rmax_left by lra. now apply IH.
Qed.

Lemma np_max_silent (S : matrix) :
  silent S -> concat S <> [] -> np_max S = Ok 0.
Proof.
  intros Hs Hne. apply silent_concat in Hs. unfold np_max.
  destruct (concat S) as [|x xs]; [congruence|].
  inversion Hs; subst. f_equal. now apply fold_max_zeros.
Qed.

End DecibelRange.

(** X12: every value of a converted matrix lies between -80 and 0
    decibels, whatever the power values are; and so does every value of
    every matrix the converter hands to the drawing call. *)
Theorem decibel_values_are_bounded (E : collaborators)
    (audio_path output_path : path) (figsize : Q * Q) (dpi : Q) (s : state)
    (S D : matrix) :
  power_to_db S ref_np_max = Ok D ->
  in_db_range D
  /\ forall D' sr x_axis y_axis fmax cmap,
       In (Specshow D' sr x_axis y_axis fmax cmap)
          (calls_made s (snd (create_spectrogram E audio_path output_path
                                figsize dpi s))) ->
       in_db_range D'.
Proof.
  intros H. split; [now apply (DecibelRange.power_to_db_range S)|].
  intros D' sr x_axis y_axis fmax cmap.
  run_converter; norm_calls; cbn [In]; intros Hin;
    repeat (destruct Hin as [Hin|Hin];
            [first [ discriminate Hin
                   | injection Hin as <-;
                     eapply DecibelRange.power_to_db_range; eassumption ]|]);
    destruct Hin.
Qed.

Lemma decibel_values_are_bounded_witness :
  exists D,
    power_to_db Samples.loud ref_np_max = Ok D /\ in_db_range D.
Proof.
  destruct (DecibelFacts.power_to_db_ok Samples.loud) as [D HD];
    [discriminate|].
  exists D. split; [exact HD|].
  apply (decibel_values_are_bounded Samples.working Samples.a_wav
           Samples.a_png default_figsize default_dpi
           (Samples.start Samples.prepared) Samples.loud D HD).
Defined.

(** X13: the two edge cases of the conversion.  A matrix without any
    energy is converted to the matrix of zeros of the same shape: the
    floor keeps the logarithm finite and the reference is the floor
    itself.  A matrix without entries is not converted: [np.max] raises,
    and so does the conversion, with the same message. *)
Theorem decibel_edge_cases (S : matrix) :
  (silent S -> concat S <> [] ->
   power_to_db S ref_np_max = Ok (mmap (fun _ => 0%R) S))
  /\ (concat S = [] ->
      power_to_db S ref_np_max
      = Raise
          "zero-size array to reduction operation maximum which has no identity").
Proof.
  split.
  - intros Hs Hne.
    rewrite (DecibelFacts.power_to_db_unfold S 0
               (DecibelRange.np_max_silent S Hs Hne)).
    f_equal. rewrite DecibelFacts.mmap_mmap.
    apply DecibelFacts.mmap_ext_in. intros x Hx.
    apply DecibelRange.silent_concat in Hs.
    rewrite Forall_forall in Hs. rewrite (Hs x Hx).
    unfold clip, db_rel, top_db.
    replace (10 * log10 (Rmax amin 0) - 10 * log10 (Rmax amin 0))%R
      with 0%R by lra.
    apply Rmax_left. lra.
  - intros He. unfold power_to_db, np_max. now rewrite He.
Qed.

Lemma decibel_edge_cases_witness :
  power_to_db [[0%R; 0%R]; [0%R; 0%R]] ref_np_max
  = Ok [[0%R; 0%R]; [0%R; 0%R]]
  /\ power_to_db [[]; []] ref_np_max
     = Raise
         "zero-size array to reduction operation maximum which has no identity".
Proof.
  split.
  - apply (decibel_edge_cases [[0%R; 0%R]; [0%R; 0%R]]).
    + repeat constructor.
    + discriminate.
  - apply (decibel_edge_cases [[]; []]). reflexivity.
Defined.

(* ================================================================= *)
(** ** Further properties: edge cases of discovery *)

(** X14: discovery looks at names only.  Every direct entry of a method
    directory whose name ends in [.wav] is listed, whether it is a regular
    file or a directory and also when nothing stands before the suffix
    (the hidden name [.wav]); the converter is then run on it like on any
    other entry. *)
Theorem discovery_looks_at_names_only (n : node) (d : path)
    (es : list (string * node)) (x : string) (child : node) :
  lookup n d = Some (Dir es) ->
  In (x ++ ".wav", child) es ->
  In (div d (x ++ ".wav")) (glob n d "*.wav").
Proof.
  intros Hl Hin. apply glob_wav_spec.
  exists es, (x ++ ".wav"), child, x. auto.
Qed.

Lemma discovery_looks_at_names_only_witness :
  In ["input_wsj0c3"; "clean"; "folder.wav"]
     (glob (Dir [("input_wsj0c3",
                  Dir [("clean", Dir [("folder.wav", Dir []);
                                      (".wav", File "RIFF")])])])
           ["input_wsj0c3"; "clean"] "*.wav").
Proof.
  apply (discovery_looks_at_names_only _ ["input_wsj0c3"; "clean"]
           [("folder.wav", Dir []); (".wav", File "RIFF")] "folder" (Dir [])).
  - reflexivity.
  - simpl. auto.
Defined.

Lemma all_absent_blocks (n : node) (ms : list string)
    (blocks : list (list string)) :
  (forall m, In m ms -> exists_ n (div input_dir m) = false) ->
  Forall2 (method_block n) ms blocks ->
  concat blocks = map warning_line ms
  /\ flat_map (discovered_in n) ms = [].
Proof.
  intros Habs H. induction H as [|m block ms blocks Hb _ IH];
    [split; reflexivity|].
  destruct IH as [IH1 IH2]; [intros m' Hm'; apply Habs; now right|].
  unfold method_block in Hb. rewrite (Habs m) in Hb by now left.
  subst block. simpl. rewrite IH1, IH2.
  rewrite (absent_method_discovers_nothing n m) by (apply Habs; now left).
  split; reflexivity.
Qed.

(** With every method directory absent the loop only prints warnings,
    which any standard output can encode. *)
Lemma for_methods_all_absent (E : collaborators) (ms : list string) :
  forall t p s,
    (forall m, In m ms -> is_ascii m = true) ->
    (forall m, In m ms -> exists_ (fs s) (div input_dir m) = false) ->
    exists s', for_methods E ms t p s = (Ok (t, p), s').
Proof.
  induction ms as [|m ms IH]; intros t p s Hasc Habs.
  - eexists. reflexivity.
  - cbn [for_methods]. rewrite bind_path_exists.
    rewrite (Habs m) by now left. cbn [negb].
    rewrite (bind_run _ _ _ _ _
               (print_ascii E _ s
                  (warning_line_ascii m (Hasc m (or_introl eq_refl))))).
    apply IH.
    + intros m' Hm'. apply Hasc. now right.
    + intros m' Hm'. cbn [fs]. apply Habs. now right.
Qed.

Lemma main_all_absent_returns (E : collaborators) (s : state) :
  exists_ (fs s) input_dir = true ->
  is_file (fs s) output_dir = false ->
  (forall m, In m methods -> exists_ (fs s) (div input_dir m) = false) ->
  exists s', main E s = (Ok tt, s').
Proof.
  intros Hin Hfree Habs. unfold main.
  rewrite bind_path_exists, Hin. cbn [negb]. unfold bind at 1.
  destruct (mkdir_exist_ok output_dir s) as [[[]|e] s1] eqn:Hmk.
  - apply mkdir_frame in Hmk. destruct Hmk as (_ & _ & Hfs1).
    assert (Hin1 : same_input (fs s) (fs s1)).
    { destruct Hfs1 as [->|(_ & _ & ->)]; [intros q; reflexivity|].
      apply same_input_update; [discriminate | intros q; reflexivity]. }
    rewrite (bind_run _ _ _ _ _ (print_all_run E header s1 header_ascii)).
    match goal with
    | |- context [bind (for_methods E methods 0 0) _ ?ss] =>
        destruct (for_methods_all_absent E methods 0 0 ss methods_ascii)
          as (s3 & Hloop)
    end.
    { intros m Hm. cbn [fs].
      change (div input_dir m) with ["input_wsj0c3"; m].
      rewrite (same_input_exists (fs s) (fs s1) [m] Hin1).
      now apply Habs. }
    rewrite (bind_run _ _ _ _ _ Hloop).
    rewrite print_all_run by apply footer_ascii. eexists. reflexivity.
  - exfalso. apply mkdir_raise in Hmk.
    + destruct Hmk as (_ & _ & Hf). congruence.
    + now apply input_root_is_in_a_directory.
Qed.

(** X15: an input root that holds none of the listed method directories
    is not an error: provided no regular file is in the way of the output
    root, the run returns normally, prints the header, the eight warnings
    in list order and the footer with [0/0], and makes no decode call. *)
Theorem empty_input_root_prints_warnings (E : collaborators) (s : state) :
  exists_ (fs s) input_dir = true ->
  is_file (fs s) output_dir = false ->
  (forall m, In m methods -> exists_ (fs s) (div input_dir m) = false) ->
  exists s',
    main E s = (Ok tt, s')
    /\ stdout s'
       = (stdout s ++ header ++ map warning_line methods ++ footer 0 0)%list
    /\ load_paths (trace s') = load_paths (trace s)
    /\ is_dir (fs s') output_dir = true.
Proof.
  intros Hin Hfree Habs.
  destruct (main_all_absent_returns E s Hin Hfree Habs) as [s' Hrun].
  exists s'. split; [exact Hrun|].
  destruct (main_post E s s' Hin Hrun) as (blocks & Hout & Hblocks & Htr & _).
  destruct (all_absent_blocks _ _ _ Habs Hblocks) as [Hc Hd].
  unfold discovered in Hout, Htr. rewrite Hd in Hout, Htr.
  rewrite Hc in Hout. rewrite app_nil_r in Htr.
  split; [exact Hout|]. split; [exact Htr|].
  destruct (main_dirs E s s' Hin Hrun) as [Hroot _]. exact Hroot.
Qed.

Lemma empty_input_root_prints_warnings_witness :
  exists s',
    main Samples.working (Samples.start (Dir [("input_wsj0c3", Dir [])]))
    = (Ok tt, s')
    /\ stdout s' = ([] ++ header ++ map warning_line methods ++ footer 0 0)%list
    /\ load_paths (trace s') = []
    /\ is_dir (fs s') output_dir = true.
Proof.
  apply (empty_input_root_prints_warnings Samples.working
           (Samples.start (Dir [("input_wsj0c3", Dir [])]))).
  - reflexivity.
  - reflexivity.
  - intros m Hm. simpl in Hm.
    repeat (destruct Hm as [<-|Hm]; [reflexivity|]). destruct Hm.
Defined.
